(** * nmcli: a wrapper around the [nmcli] executable

    Shallow embedding of [nmcli/__init__.py]: the field table and its
    prefix-shortening lookup, the terse-output parser (single-line and
    multiline), and the argument validation and serialisation of the
    generated actions.  Python objects are a small tagged universe,
    dictionaries are [gmap]s, exceptions are the left summand of a sum, and
    the calls of [_shell] are logged in a trace. *)

From Stdlib Require Import ZArith Ascii String List Bool Lia.
From Stdlib Require Import DecimalString.
From stdpp Require Import gmap strings list fin_maps.
From Equations Require Import Equations.

Import ListNotations.
Local Open Scope string_scope.
Local Open Scope list_scope.

(** ** Python values and exceptions *)

Module Py.

(** The scalars that reach the wrapper: [None], [bool], [int], [str]. *)
Inductive pyval : Type :=
  | VNone
  | VBool (b : bool)
  | VInt (z : Z)
  | VStr (s : string).

(** An argument is a scalar or a [list] of scalars ([isinstance(args, list)]). *)
Inductive pyobj : Type :=
  | PVal (v : pyval)
  | PList (l : list pyval).

(** The exceptions the module can raise.  [Exception] carries its message. *)
Inductive exn : Type :=
  | KeyError (key : string)
  | IndexError (msg : string)
  | TypeError (msg : string)
  | ValueError (msg : string)
  | AttributeError (msg : string)
  | OSError (msg : string)
  | Exception (msg : string).

Definition result (A : Type) : Type := (exn + A)%type.

Abbreviation ok a := (@inr exn _ a).
Abbreviation raise e := (@inl exn _ e).

Definition rbind {A B} (m : result A) (k : A -> result B) : result B :=
  match m with
  | inl e => inl e
  | inr a => k a
  end.

(** *** [str] methods *)

Definition lower_ascii (c : ascii) : ascii :=
  let n := nat_of_ascii c in
  if (65 <=? n)%nat && (n <=? 90)%nat then ascii_of_nat (n + 32) else c.

(** [s.lower()] on a byte string. *)
Fixpoint lower (s : string) : string :=
  match s with
  | EmptyString => EmptyString
  | String c s' => String (lower_ascii c) (lower s')
  end.

(** [s.split(sep)] for a one-character separator: never empty. *)
Fixpoint split (sep : ascii) (s : string) : list string :=
  match s with
  | EmptyString => [EmptyString]
  | String c s' =>
      if Ascii.eqb c sep then EmptyString :: split sep s'
      else match split sep s' with
           | [] => [String c EmptyString]
           | w :: ws => String c w :: ws
           end
  end.

(** [s.split(sep, 1)]: at most one cut, at the first separator. *)
Fixpoint split1 (sep : ascii) (s : string) : list string :=
  match s with
  | EmptyString => [EmptyString]
  | String c s' =>
      if Ascii.eqb c sep then [EmptyString; s']
      else match split1 sep s' with
           | [] => [String c EmptyString]
           | w :: ws => String c w :: ws
           end
  end.

(** [sep.join(l)] on a list of [str]. *)
Fixpoint concat_with (sep : string) (l : list string) : string :=
  match l with
  | [] => EmptyString
  | [x] => x
  | x :: rest => x ++ sep ++ concat_with sep rest
  end.

(** The type name Python prints in its messages. *)
Definition type_name (v : pyval) : string :=
  match v with
  | VNone => "NoneType"
  | VBool _ => "bool"
  | VInt _ => "int"
  | VStr _ => "str"
  end.

Definition nat_to_string (n : nat) : string :=
  NilZero.string_of_uint (Nat.to_uint n).

(** [str(z)] of an [int]. *)
Definition Z_to_string (z : Z) : string :=
  NilZero.string_of_int (Z.to_int z).

(** The elements of [l] as [str], or the [TypeError] of [join] at the first
    item that is not one. *)
Fixpoint strs_from (i : nat) (l : list pyval) : result (list string) :=
  match l with
  | [] => ok []
  | VStr s :: rest => rbind (strs_from (S i) rest) (fun ss => ok (s :: ss))
  | v :: _ =>
      raise (TypeError ("sequence item " ++ nat_to_string i
                        ++ ": expected string, " ++ type_name v ++ " found"))
  end.

(** [sep.join(l)] on a list of objects. *)
Definition join (sep : string) (l : list pyval) : result string :=
  rbind (strs_from 0 l) (fun ss => ok (concat_with sep ss)).

(** [a == b] on scalars; [True == 1] and [False == 0] as in Python. *)
Definition py_eq (a b : pyval) : bool :=
  match a, b with
  | VNone, VNone => true
  | VBool x, VBool y => Bool.eqb x y
  | VInt x, VInt y => Z.eqb x y
  | VBool x, VInt y | VInt y, VBool x => Z.eqb (if x then 1 else 0) y
  | VStr x, VStr y => String.eqb x y
  | _, _ => false
  end.

Fixpoint py_list_eq (l1 l2 : list pyval) : bool :=
  match l1, l2 with
  | [], [] => true
  | x :: l1', y :: l2' => py_eq x y && py_list_eq l1' l2'
  | _, _ => false
  end.

(** [a == b] on objects: a [list] never equals a scalar. *)
Definition py_obj_eq (a b : pyobj) : bool :=
  match a, b with
  | PVal x, PVal y => py_eq x y
  | PList x, PList y => py_list_eq x y
  | _, _ => false
  end.

(** [x in t] for a tuple or list [t] of objects. *)
Definition py_in (x : pyobj) (t : list pyobj) : bool :=
  existsb (py_obj_eq x) t.

(** Truth value of a scalar, as [if x:] and [x or y] take it. *)
Definition truthy (v : pyval) : bool :=
  match v with
  | VNone => false
  | VBool b => b
  | VInt z => negb (Z.eqb z 0)
  | VStr s => negb (String.eqb s "")
  end.

Definition py_or (a b : pyval) : pyval := if truthy a then a else b.

(** Iterating an object that must be a [list] of [str]. *)
Definition str_items (o : pyobj) : result (list string) :=
  match o with
  | PList l => strs_from 0 l
  | PVal v =>
      raise (TypeError ("'" ++ type_name v ++ "' object is not iterable"))
  end.

(** [dict(pairs)]: later pairs overwrite earlier ones. *)
Definition dict_of (pairs : list (string * string)) : gmap string string :=
  fold_left (fun d kv => <[kv.1 := kv.2]> d) pairs ∅.

(** *** Computations that call the external tool

    A computation threads the log of the argument vectors handed to
    [_shell]; an exception ends it and keeps the log. *)
Definition trace : Type := list (list pyval).
Definition io (A : Type) : Type := trace -> result A * trace.

Definition io_ret {A} (a : A) : io A := fun t => (ok a, t).
Definition io_lift {A} (r : result A) : io A := fun t => (r, t).
Definition io_bind {A B} (m : io A) (k : A -> io B) : io B :=
  fun t => match m t with
           | (inl e, t') => (inl e, t')
           | (inr a, t') => k a t'
           end.

(** *** [str()] and [repr()] *)

Definition hex_digit (n : nat) : ascii :=
  nth n (list_ascii_of_string "0123456789abcdef") "0"%char.

Definition mem_ascii (c : ascii) (s : string) : bool :=
  existsb (Ascii.eqb c) (list_ascii_of_string s).

(** One character of [repr(s)] for a Python 2 [str] quoted with [q]. *)
Definition repr_char (q c : ascii) : string :=
  let n := nat_of_ascii c in
  if Ascii.eqb c q || Ascii.eqb c "\"%char then String "\"%char (String c "")
  else if (n =? 9)%nat then "\t"
  else if (n =? 10)%nat then "\n"
  else if (n =? 13)%nat then "\r"
  else if (n <? 32)%nat || (127 <=? n)%nat then
    String "\"%char (String "x"%char
      (String (hex_digit (n / 16)) (String (hex_digit (n mod 16)) "")))
  else String c "".

(** The double quote character. *)
Definition dquote : ascii := ascii_of_nat 34.

(** [repr(s)]: single quotes unless [s] has one and no double quote. *)
Definition repr_str (s : string) : string :=
  let q := if mem_ascii "'"%char s && negb (mem_ascii dquote s)
           then dquote else "'"%char in
  String q (concat_with "" (map (repr_char q) (list_ascii_of_string s)))
  ++ String q "".

Definition py_str (v : pyval) : string :=
  match v with
  | VNone => "None"
  | VBool true => "True"
  | VBool false => "False"
  | VInt z => Z_to_string z
  | VStr s => s
  end.

Definition py_repr (v : pyval) : string :=
  match v with
  | VStr s => repr_str s
  | _ => py_str v
  end.

(** What [%s] prints for an object: a list prints the [repr] of its items. *)
Definition py_str_obj (o : pyobj) : string :=
  match o with
  | PVal v => py_str v
  | PList l => "[" ++ concat_with ", " (map py_repr l) ++ "]"
  end.

(** [needle in hay] on two [str]. *)
Fixpoint is_substring (needle hay : string) : bool :=
  String.prefix needle hay ||
  match hay with
  | EmptyString => false
  | String _ hay' => is_substring needle hay'
  end.

(** [x in c]: membership in a list, substring in a [str], and the
    [TypeError] of a container that is not iterable. *)
Definition py_contains (c : pyobj) (x : pyval) : result bool :=
  match c with
  | PList l => ok (existsb (py_eq x) l)
  | PVal (VStr hay) =>
      match x with
      | VStr needle => ok (is_substring needle hay)
      | _ => raise (TypeError ("'in <string>' requires string as left operand, not "
                               ++ type_name x))
      end
  | PVal v =>
      raise (TypeError ("argument of type '" ++ type_name v ++ "' is not iterable"))
  end.

End Py.

Import Py.

(** ** The field table *)

Definition words (s : string) : list string := split " " s.

Definition NMCLI_FIELDS : gmap string (list string) :=
  <["con list id" :=
      split ","
        ("connection,802-3-ethernet,802-1x,802-11-wireless," ++
         "802-11-wireless-security,ipv4,ipv6,serial,ppp,pppoe," ++
         "gsm,cdma,bluetooth,802-11-olpc-mesh,vpn,infiniband,bond," ++
         "vlan")]>
  (<["con status" := words "NAME UUID DEVICES DEFAULT VPN MASTER-PATH"]>
  (<["con" := words "NAME UUID TYPE TIMESTAMP-REAL"]>
  (<["dev" := words "DEVICE TYPE STATE"]>
  (<["nm" := words "RUNNING STATE WIFI-HARDWARE WIFI WWAN-HARDWARE WWAN"]>
   ∅)))).

(** [NMCLI_MULTILINE_KEYS = ('con list id',)]: a tuple of [str]. *)
Definition NMCLI_MULTILINE_KEYS : list pyobj := [PVal (VStr "con list id")].

(** A FieldSet as the Python [list] of [str] it is. *)
Definition fieldset (fs : list string) : pyobj := PList (map VStr fs).

(** [_build_fields]: look [' '.join(ns)] up; on [KeyError], [ns.pop()] (an
    [IndexError] on the empty list) and retry.  A [TypeError] of [join] is
    not caught.  The membership test is on the FieldSet just read. *)
Equations? _build_fields (ns : list pyval) (fields : pyobj) (multiline : bool)
  : result (list pyval * pyobj * bool) by wf (length ns) lt :=
  _build_fields ns fields multiline with join " " ns => {
    | inl e := raise e;
    | inr key with NMCLI_FIELDS !! key => {
        | Some fs :=
            ok (ns, fieldset fs,
                if py_in (fieldset fs) NMCLI_MULTILINE_KEYS then true else multiline);
        | None with ns => {
            | [] := raise (IndexError "pop from empty list");
            | x :: rest := _build_fields (removelast (x :: rest)) fields multiline } } }.
Proof.
  clear. revert x. induction rest as [|y rest IH]; intros x; simpl in *.
  - lia.
  - specialize (IH y). lia.
Qed.

Notation "'let*' x ':=' m 'in' k" := (io_bind m (fun x => k))
  (at level 10, x pattern, m at level 100, k at level 200).

(** A row of structured output. *)
Abbreviation record := (gmap string string).

(** ** The output parser *)

(** One line of multiline output: [values = line.split(':', 1)], and when
    there are two, [field, prop = multikey.split('.')] and
    [row[prop] = value].  The unpacking needs exactly two parts. *)
Definition multiline_line (row : record) (line : string) : result record :=
  match split1 ":" line with
  | [multikey; value] =>
      match split "." multikey with
      | [_field; prop] => ok (<[prop := value]> row)
      | [] => raise (ValueError "need more than 0 values to unpack")
      | [_] => raise (ValueError "need more than 1 value to unpack")
      | _ => raise (ValueError "too many values to unpack")
      end
  | _ => ok row
  end.

(** The [for line in ...] loop of the multiline branch. *)
Fixpoint multiline_rows (row : record) (lines : list string) : result record :=
  match lines with
  | [] => ok row
  | line :: rest => rbind (multiline_line row line) (fun row' => multiline_rows row' rest)
  end.

(** One line of single-line output: a row when the column count fits. *)
Definition single_line (fields : list string) (line : string) : list record :=
  let values := split ":" line in
  if (length values =? length fields)%nat
  then [dict_of (combine fields values)]
  else [].

(** The body of [if retcode == 0:]. *)
Definition parse (stdout : string) (fields : list string) (multiline : bool)
  : result (list record) :=
  if multiline then
    rbind (multiline_rows ∅ (split "010" stdout)) (fun row => ok [row])
  else
    ok (flat_map (single_line fields) (split "010" stdout)).

(** ** The query *)

Section Query.

(** [subprocess.Popen(args).communicate()]: exit code, stdout, stderr, or
    the exception of a process that could not start. *)
Variable _shell : list pyval -> result (Z * string * string).

(** [shlex.split]. *)
Variable shlex_split : string -> result (list string).

Definition call_shell (args : list pyval) : io (Z * string * string) :=
  fun t => (_shell args, t ++ [args]).

(** [fields or []] and the list it extends [ns] by. *)
Definition fields_or_empty (fields : option (list pyval)) : list pyval :=
  match fields with
  | Some l => l
  | None => []
  end.

Definition fields_obj (fields : option (list pyval)) : pyobj :=
  match fields with
  | Some l => PList l
  | None => PVal VNone
  end.

(** [if command: args += shlex.split(command)]. *)
Definition command_args (command : pyval) : result (list pyval) :=
  if truthy command then
    match command with
    | VStr c => rbind (shlex_split c) (fun ws => ok (map VStr ws))
    | v => raise (AttributeError ("'" ++ type_name v ++ "' object has no attribute 'read'"))
    end
  else ok [].

Definition failure_message (retcode : Z) (stderr : string) : string :=
  "nmcli return " ++ Z_to_string retcode ++ " code. STDERR='" ++ stderr ++ "'".

(** The fixed head of the argument vector. *)
Definition nmcli_args (fields : list string) (obj : pyval) : list pyval :=
  [VStr "nmcli"; VStr "--terse"; VStr "--fields";
   VStr (concat_with "," fields); py_or obj (VStr "")].

(** What follows [retcode, stdout, stderr = _shell(args)]. *)
Definition on_exit (out : Z * string * string) (fields : list string)
  (multiline : bool) : result (list record) :=
  let '(retcode, stdout, stderr) := out in
  if (retcode =? 0)%Z then parse stdout fields multiline
  else raise (Exception (failure_message retcode stderr)).

Definition _nmcli (obj command : pyval) (fields : option (list pyval))
  (multiline : bool) : io (list record) :=
  let ns := [obj; command] ++ fields_or_empty fields in
  let* (_, fields, multiline) :=
    io_lift (_build_fields ns (fields_obj fields) multiline) in
  let* fs := io_lift (str_items fields) in
  let args := nmcli_args fs obj in
  let* extra := io_lift (command_args command) in
  let* out := call_shell (args ++ extra) in
  io_lift (on_exit out fs multiline).

End Query.

(** ** Actions: validation and serialisation *)

Section Action.

Variable _shell : list pyval -> result (Z * string * string).
Variable shlex_split : string -> result (list string).

(** [self.cmdname], and the [command] and [possibleargs] closed over by
    [gen_action]. *)
Variable cmdname : string.
Variable command : string.
Variable possibleargs : pyobj.

Definition sanitize_arg (arg : pyval) : pyval :=
  match arg with
  | VBool b => VStr (lower (py_str (VBool b)))
  | VInt z => VStr (py_str (VInt z))
  | VStr s => VStr (lower s)
  | VNone => VNone
  end.

Definition sanitize_args (args : pyobj) : pyobj :=
  match args with
  | PList l => PList (map sanitize_arg l)
  | PVal v => PVal (sanitize_arg v)
  end.

Definition usableargs : pyobj := sanitize_args possibleargs.

Definition invalid_message (arg : pyval) : string :=
  py_str arg ++ " is not a valid argument for '" ++ command
  ++ "'. Parameters: " ++ py_str_obj possibleargs.

(** [verify_arg]; its argument is an item of [args], a scalar, so
    [sanitize_args] takes its [else] branch. *)
Definition verify_arg (arg : pyval) : result pyval :=
  let arg := sanitize_arg arg in
  rbind (py_contains usableargs arg) (fun found =>
    if negb found then raise (Exception (invalid_message arg))
    else ok arg).

(** [[verify_arg(arg) for arg in args]]: stops at the first exception. *)
Fixpoint verify_args (args : list pyval) : result (list pyval) :=
  match args with
  | [] => ok []
  | arg :: rest =>
      rbind (verify_arg arg) (fun a =>
        rbind (verify_args rest) (fun r => ok (a :: r)))
  end.

(** Keyword arguments in the iteration order of the [dict]. *)
Definition kwargs_t : Type := list (string * pyobj).

Definition kw_lookup (kwargs : kwargs_t) (arg : pyval) : option pyobj :=
  match arg with
  | VStr k => snd <$> find (fun kv => String.eqb (fst kv) k) kwargs
  | _ => None
  end.

(** One item of [opts]: the token, or ["%s %s" % (arg, value)]. *)
Definition option_of (kwargs : kwargs_t) (arg : pyval) : pyval :=
  match kw_lookup kwargs arg with
  | None => arg
  | Some v => VStr (py_str arg ++ " " ++ py_str_obj (sanitize_args v))%string
  end.

(** The candidate tokens: [args] made a list, then the keyword names. *)
Definition candidates (args : pyobj) (kwargs : kwargs_t) : list pyval :=
  let args := match args with
              | PVal VNone => []
              | PVal v => [v]
              | PList l => l
              end in
  args ++ map (fun kv => VStr (fst kv)) kwargs.

(** The command string handed to [_nmcli]. *)
Definition build_cmd (args : pyobj) (kwargs : kwargs_t) : result string :=
  rbind (verify_args (candidates args kwargs)) (fun args =>
    match args with
    | [] => ok command
    | _ =>
        rbind (join " " (map (option_of kwargs) args)) (fun opts =>
          ok (command ++ " " ++ opts)%string)
    end).

Definition run_action (args : pyobj) (kwargs : kwargs_t) : io (list record) :=
  let* cmd := io_lift (build_cmd args kwargs) in
  _nmcli _shell shlex_split (VStr cmdname) (VStr cmd) None false.

End Action.

(** ** The registries *)

Record _NMCommand : Type := {
  nm_cmdname : string;
  nm_commands : list (string * pyobj)
}.

Definition none : pyobj := PVal VNone.
Definition strs (l : list string) : pyobj := PList (map VStr l).

Definition nm : _NMCommand := {|
  nm_cmdname := "nm";
  nm_commands :=
    [("status", none);
     ("enable", PList [VBool true; VBool false]);
     ("sleep", PList [VBool true; VBool false]);
     ("wifi", strs ["on"; "off"]);
     ("wwan", strs ["on"; "off"])] |}.

Definition con : _NMCommand := {|
  nm_cmdname := "con";
  nm_commands :=
    [("list", PList [VNone; VStr "id"; VStr "uuid"]);
     ("status", PList [VNone; VStr "id"; VStr "uuid"; VStr "path"]);
     ("up", strs ["id"; "uuid"; "iface"; "ap"]);
     ("down", strs ["id"; "uuid"]);
     ("delete", strs ["id"; "uuid"])] |}.

Definition dev : _NMCommand := {|
  nm_cmdname := "dev";
  nm_commands :=
    [("status", none);
     ("list", PList [VNone; VStr "iface"]);
     ("disconnect", strs ["iface"]);
     ("wifi", strs ["list"])] |}.

(** [setattr(self, command, ...)] in order: the last entry of a name wins. *)
Definition registered (o : _NMCommand) (command : string) : option pyobj :=
  snd <$> find (fun e => String.eqb (fst e) command) (rev (nm_commands o)).

(** [getattr(o, command)(args, **kwargs)]: the action the constructor set,
    or the [AttributeError] of a name it did not. *)
Definition call_action
    (_shell : list pyval -> result (Z * string * string))
    (shlex_split : string -> result (list string))
    (o : _NMCommand) (command : string) (args : pyobj) (kwargs : kwargs_t)
  : io (list record) :=
  match registered o command with
  | Some possibleargs =>
      run_action _shell shlex_split (nm_cmdname o) command possibleargs args kwargs
  | None =>
      io_lift (raise (AttributeError
        ("'_NMCommand' object has no attribute '" ++ command ++ "'")))
  end.

(** The line feed, and text made of lines. *)
Definition LF : string := String "010"%char "".

Definition text (lines : list string) : string :=
  concat_with "" (map (fun l => l ++ LF)%string lines).

(** The keys of [NMCLI_FIELDS]. *)
Definition registered_keys : list string :=
  ["nm"; "dev"; "con"; "con status"; "con list id"].

(** Whether some path [obj command t1 ... tk] with [k >= 1] tokens of
    [extra] is a key of the table. *)
Definition extends_registered (base : list pyval) (extra : list string) : bool :=
  existsb
    (fun k => match join " " (base ++ map VStr (take k extra)) with
              | inr key => bool_decide (is_Some (NMCLI_FIELDS !! key))
              | inl _ => false
              end)
    (seq 1 (length extra)).

(** The [fields] argument as a caller passes it: [None] or a list of [str]. *)
Definition str_fields (f : option (list string)) : option (list pyval) :=
  map VStr <$> f.

(** A tool that always exits the same way, and [shlex.split] as it acts on
    a command without quotes, escapes or repeated blanks. *)
Definition fixed_shell (out : Z * string * string)
  : list pyval -> result (Z * string * string) := fun _ => ok out.

Definition plain_shlex (command : string) : result (list string) :=
  ok (words command).

(** What a line of multiline output assigns, when it assigns: the part of
    its key after the one dot, and the text after the first colon. *)
Definition assignment (line : string) : option (string * string) :=
  match split1 ":" line with
  | [multikey; value] =>
      match split "." multikey with
      | [_; prop] => Some (prop, value)
      | _ => None
      end
  | _ => None
  end.

(** A line that has no colon, or one dot in its key. *)
Definition dotted_key (line : string) : bool :=
  match split1 ":" line with
  | [multikey; _] => (length (split "." multikey) =? 2)%nat
  | _ => true
  end.

(** The objects of the three registries. *)
Definition objects : list string := ["nm"; "dev"; "con"].

(** The path key an action of a registered object resolves: the object and
    the command string when they make a key together, else the object. *)
Definition action_key (cmdname cmd : string) : string :=
  if String.eqb cmdname "con" && (String.eqb cmd "status" || String.eqb cmd "list id")
  then cmdname ++ " " ++ cmd
  else cmdname.

Definition action_path (cmdname cmd : string) : list pyval :=
  if String.eqb cmdname "con" && (String.eqb cmd "status" || String.eqb cmd "list id")
  then [VStr cmdname; VStr cmd]
  else [VStr cmdname].

(** A line of multiline output, as the tool writes a section, a property
    and a value. *)
Definition assignment_line (a : string * string * string) : string :=
  let '(section, prop, value) := a in
  section ++ "." ++ prop ++ ":" ++ value.

(** * Properties *)

(** ** The field resolver *)

Section Resolver.

Implicit Types (ns : list pyval) (fields : pyobj) (multiline : bool).

(** The body of [_build_fields], one [try] at a time. *)
Lemma _build_fields_body ns fields multiline :
  _build_fields ns fields multiline =
  match join " " ns with
  | inl e => raise e
  | inr key =>
      match NMCLI_FIELDS !! key with
      | Some fs =>
          ok (ns, fieldset fs,
              if py_in (fieldset fs) NMCLI_MULTILINE_KEYS then true else multiline)
      | None =>
          match ns with
          | [] => raise (IndexError "pop from empty list")
          | _ :: _ => _build_fields (removelast ns) fields multiline
          end
      end
  end.
Proof.
  simp _build_fields. destruct (join " " ns) as [e|key]; simpl; [done|].
  destruct (NMCLI_FIELDS !! key); simpl; [done|].
  destruct ns; simpl; [done|]. by simp _build_fields.
Qed.

(** [fields in NMCLI_MULTILINE_KEYS] compares a list with strings. *)
Lemma fieldset_not_in_multiline_keys (fs : list string) :
  py_in (fieldset fs) NMCLI_MULTILINE_KEYS = false.
Proof. reflexivity. Qed.

(** With nothing left to drop, [ns.pop()] raises. *)
Lemma _build_fields_nil fields multiline :
  _build_fields [] fields multiline = raise (IndexError "pop from empty list").
Proof. reflexivity. Qed.

(** One round on a path that has a last token. *)
Lemma _build_fields_snoc ns x fields multiline :
  _build_fields (ns ++ [x]) fields multiline =
  match join " " (ns ++ [x]) with
  | inl e => raise e
  | inr key =>
      match NMCLI_FIELDS !! key with
      | Some fs => ok (ns ++ [x], fieldset fs, multiline)
      | None => _build_fields ns fields multiline
      end
  end.
Proof.
  rewrite _build_fields_body.
  destruct (join " " (ns ++ [x])) as [e|key]; [done|].
  destruct (NMCLI_FIELDS !! key) as [fs|].
  - by rewrite fieldset_not_in_multiline_keys.
  - rewrite removelast_last. by destruct ns.
Qed.

Lemma _build_fields_hit ns key fs fields multiline :
  join " " ns = ok key -> NMCLI_FIELDS !! key = Some fs ->
  _build_fields ns fields multiline = ok (ns, fieldset fs, multiline).
Proof.
  intros Hj Hk. rewrite _build_fields_body, Hj, Hk.
  by rewrite fieldset_not_in_multiline_keys.
Qed.

(** The flag that comes back is the flag that went in. *)
Lemma _build_fields_multiline ns fields multiline ns' fs' m' :
  _build_fields ns fields multiline = ok (ns', fs', m') -> m' = multiline.
Proof.
  induction ns as [|x ns IH] using rev_ind; [done|].
  rewrite _build_fields_snoc.
  destruct (join " " (ns ++ [x])) as [e|key]; [done|].
  destruct (NMCLI_FIELDS !! key); [|done]. by inversion 1.
Qed.

(** A successful lookup returns a FieldSet of the table, that of the path
    it returns. *)
Lemma _build_fields_from_table ns fields multiline ns' fs' m' :
  _build_fields ns fields multiline = ok (ns', fs', m') ->
  exists key fs,
    join " " ns' = ok key /\ NMCLI_FIELDS !! key = Some fs /\ fs' = fieldset fs.
Proof.
  induction ns as [|x ns IH] using rev_ind; [done|].
  rewrite _build_fields_snoc.
  destruct (join " " (ns ++ [x])) as [e|key] eqn:Hj; [done|].
  destruct (NMCLI_FIELDS !! key) as [fs|] eqn:Hk; [|done].
  inversion 1; subst. eauto.
Qed.

(** The [fields] argument only travels along: the outcome ignores it. *)
Lemma _build_fields_fields_arg ns fields fields' multiline :
  _build_fields ns fields multiline = _build_fields ns fields' multiline.
Proof.
  induction ns as [|x ns IH] using rev_ind; [done|].
  rewrite !_build_fields_snoc.
  destruct (join " " (ns ++ [x])) as [e|key]; [done|].
  by destruct (NMCLI_FIELDS !! key).
Qed.

(** [join] on a path that ends in strings. *)
Lemma strs_from_app i (l : list pyval) (ss : list string) :
  strs_from i (l ++ map VStr ss) =
  rbind (strs_from i l) (fun a => ok (a ++ ss)).
Proof.
  revert i. induction l as [|v l IH]; intros i; simpl.
  - revert i. induction ss as [|s ss IHs]; intros i; simpl; [done|].
    by rewrite IHs.
  - destruct v; try done. rewrite IH. by destruct (strs_from (S i) l).
Qed.

Lemma join_strs sep (ss : list string) :
  join sep (map VStr ss) = ok (concat_with sep ss).
Proof.
  unfold join. by rewrite <- (app_nil_l (map VStr ss)), strs_from_app.
Qed.

Lemma join_app_error sep (l : list pyval) (ss : list string) e :
  join sep l = raise e -> join sep (l ++ map VStr ss) = raise e.
Proof.
  unfold join. rewrite strs_from_app.
  by destruct (strs_from 0 l).
Qed.

Lemma existsb_false_iff {A} (f : A -> bool) (l : list A) :
  existsb f l = false <-> forall x, In x l -> f x = false.
Proof.
  induction l as [|a l IH]; simpl.
  - split; [intros _ x []|done].
  - rewrite orb_false_iff, IH. split.
    + intros [Ha Hl] x [<-|Hx]; auto.
    + intros H. split; [|intros x Hx]; apply H; auto.
Qed.

(** Trailing tokens that complete no key of the table are dropped one by
    one, down to the path they were appended to. *)
Lemma _build_fields_drop_extra (base : list pyval) (extra : list string)
    fields multiline :
  extends_registered base extra = false ->
  _build_fields (base ++ map VStr extra) fields multiline =
  _build_fields base fields multiline.
Proof.
  unfold extends_registered. rewrite existsb_false_iff.
  induction extra as [|x ex IH] using rev_ind; intros Hno.
  - simpl. by rewrite app_nil_r.
  - assert (Hlast := Hno (S (length ex))).
    rewrite length_app, in_seq in Hlast. simpl in Hlast.
    rewrite Nat.add_1_r in Hlast. specialize (Hlast ltac:(lia)).
    replace (take (S (length ex)) (ex ++ [x])) with (ex ++ [x]) in Hlast
      by (symmetry; apply take_ge; rewrite length_app; simpl; lia).
    rewrite map_app in *. simpl in *. rewrite app_assoc in *.
    rewrite _build_fields_snoc.
    destruct (join " " ((base ++ map VStr ex) ++ [VStr x])) as [e|key] eqn:Hj.
    + rewrite _build_fields_body.
      rewrite <- app_assoc in Hj. change [VStr x] with (map VStr [x]) in Hj.
      rewrite <- map_app in Hj. unfold join in *. rewrite strs_from_app in Hj.
      destruct (strs_from 0 base); [by inversion Hj|done].
    + apply bool_decide_eq_false in Hlast.
      destruct (NMCLI_FIELDS !! key) as [fs|]; [by destruct Hlast|].
      apply IH. intros k Hk. rewrite in_seq in Hk.
      specialize (Hno k). rewrite length_app, in_seq in Hno. simpl in Hno.
      specialize (Hno ltac:(lia)).
      by rewrite take_app_le in Hno by lia.
Qed.

(** The nearest registered ancestor of a path of tokens. *)
Lemma _build_fields_nearest (path : list pyval) (rest : list string) key fs
    fields multiline :
  join " " path = ok key -> NMCLI_FIELDS !! key = Some fs ->
  extends_registered path rest = false ->
  _build_fields (path ++ map VStr rest) fields multiline =
  ok (path, fieldset fs, multiline).
Proof.
  intros Hj Hk Hno. rewrite _build_fields_drop_extra by done.
  by apply (_build_fields_hit _ key).
Qed.

Lemma registered_keys_table key :
  In key registered_keys <-> is_Some (NMCLI_FIELDS !! key).
Proof.
  unfold NMCLI_FIELDS, registered_keys. rewrite !lookup_insert_is_Some.
  rewrite lookup_empty, is_Some_alt. simpl.
  intuition (subst; first [done | auto 10]).
Qed.

End Resolver.

(** ** Claims on the resolver *)

(** C1, as amended.  For every key of the field table (nm, dev, con,
    con status, con list id), resolving a path that joins to exactly that
    key returns the path and the key's own FieldSet.  For nm, dev, con and
    con status the flag that comes back is the caller's, false unless the
    caller passes true; for every key it is true whenever the caller's flag
    is.  The FieldSet of con list id has 18 entries. *)
Theorem resolve_registered_key (ns : list pyval) (key : string)
    (fields : pyobj) (multiline : bool) :
  join " " ns = ok key ->
  In key registered_keys ->
  exists fs m,
    NMCLI_FIELDS !! key = Some fs /\
    _build_fields ns fields multiline = ok (ns, fieldset fs, m) /\
    (multiline = true -> m = true) /\
    (key <> "con list id" -> m = multiline) /\
    (key = "con list id" -> length fs = 18).
Proof.
  intros Hj Hin.
  assert (Hsome := proj1 (registered_keys_table key) Hin).
  destruct Hsome as [fs Hfs]. exists fs, multiline.
  split; [done|]. split; [by apply (_build_fields_hit _ key)|].
  split; [done|]. split; [done|].
  intros ->. vm_compute in Hfs. by inversion Hfs.
Qed.

Lemma resolve_registered_key_witness :
  exists fs m,
    NMCLI_FIELDS !! "con list id" = Some fs /\
    _build_fields [VStr "con"; VStr "list"; VStr "id"] (PVal VNone) false
      = ok ([VStr "con"; VStr "list"; VStr "id"], fieldset fs, m) /\
    (false = true -> m = true) /\
    ("con list id" <> "con list id" -> m = false) /\
    ("con list id" = "con list id" -> length fs = 18).
Proof.
  apply (resolve_registered_key [VStr "con"; VStr "list"; VStr "id"]).
  - reflexivity.
  - simpl. do 4 right. left. reflexivity.
Defined.

(** C1 as stated fails.  The FieldSet that con list id resolves to does not
    have 17 entries; and the flag does not depend on the key alone: nm is
    no multiline key, and resolves with the flag true when the caller's
    is. *)
Lemma resolve_con_list_id_not_17 :
  ~ (exists ns' fs m,
       _build_fields [VStr "con"; VStr "list"; VStr "id"] (PVal VNone) false
         = ok (ns', fieldset fs, m) /\
       length fs = 17) /\
  _build_fields [VStr "nm"] (PVal VNone) true
  = ok ([VStr "nm"],
        fieldset ["RUNNING"; "STATE"; "WIFI-HARDWARE"; "WIFI";
                  "WWAN-HARDWARE"; "WWAN"],
        true).
Proof.
  split; [|by vm_compute].
  intros (ns' & fs & m & Hr & Hlen).
  rewrite (_build_fields_hit _ "con list id"
             (split "," ("connection,802-3-ethernet,802-1x,802-11-wireless," ++
                         "802-11-wireless-security,ipv4,ipv6,serial,ppp,pppoe," ++
                         "gsm,cdma,bluetooth,802-11-olpc-mesh,vpn,infiniband,bond," ++
                         "vlan"))) in Hr by reflexivity.
  inversion Hr as [[Hns Hfs]]. apply (f_equal length) in Hfs.
  rewrite length_map, Hlen in Hfs. discriminate.
Qed.

(** The flag of con list id: the membership test never fires, the caller's
    [multiline] comes back. *)
Example resolve_con_list_id_flag (multiline : bool) :
  exists fs,
    _build_fields [VStr "con"; VStr "list id"] (PVal VNone) multiline
    = ok ([VStr "con"; VStr "list id"], fs, multiline).
Proof.
  eexists. by apply (_build_fields_hit _ "con list id").
Qed.

(** C2 fails on the code.  [con.status(id="x")] hands [_nmcli] the command
    status id x as one item of [ns]; the first [ns.pop()] drops all of it
    and the path resolves to the FieldSet of con, not of con status. *)
Theorem con_status_id_x_resolves_con :
  build_cmd "status" (PList [VNone; VStr "id"; VStr "uuid"; VStr "path"])
    (PVal VNone) [("id", PVal (VStr "x"))] = ok "status id x" /\
  _build_fields [VStr "con"; VStr "status id x"] (PVal VNone) false
    = ok ([VStr "con"], fieldset ["NAME"; "UUID"; "TYPE"; "TIMESTAMP-REAL"], false) /\
  NMCLI_FIELDS !! "con status"
    = Some ["NAME"; "UUID"; "DEVICES"; "DEFAULT"; "VPN"; "MASTER-PATH"].
Proof. vm_compute. repeat split. Qed.

(** On a path whose items are single tokens the lookup does find the
    nearest registered ancestor. *)
Example tokens_status_id_x_resolve_con_status :
  _build_fields [VStr "con"; VStr "status"; VStr "id"; VStr "x"] (PVal VNone) false
  = ok ([VStr "con"; VStr "status"],
        fieldset ["NAME"; "UUID"; "DEVICES"; "DEFAULT"; "VPN"; "MASTER-PATH"], false).
Proof.
  by apply (_build_fields_nearest [VStr "con"; VStr "status"] ["id"; "x"] "con status").
Qed.

(** The argument vectors the tool gets: for [con.status(id="x")] and for
    [con.list(id="home")] the field list is that of con. *)
Example con_status_id_x_argv :
  snd (call_action (fixed_shell (0%Z, "", "")) plain_shlex con "status"
         (PVal VNone) [("id", PVal (VStr "x"))] [])
  = [[VStr "nmcli"; VStr "--terse"; VStr "--fields";
      VStr "NAME,UUID,TYPE,TIMESTAMP-REAL";
      VStr "con"; VStr "status"; VStr "id"; VStr "x"]].
Proof. by vm_compute. Qed.

Example con_list_id_home_argv :
  snd (call_action (fixed_shell (0%Z, "", "")) plain_shlex con "list"
         (PVal VNone) [("id", PVal (VStr "home"))] [])
  = [[VStr "nmcli"; VStr "--terse"; VStr "--fields";
      VStr "NAME,UUID,TYPE,TIMESTAMP-REAL";
      VStr "con"; VStr "list"; VStr "id"; VStr "home"]].
Proof. by vm_compute. Qed.

(** ** The query *)

Section QueryFacts.

Variable _shell : list pyval -> result (Z * string * string).
Variable shlex_split : string -> result (list string).

Implicit Types (obj command : pyval) (t : trace).

Lemma str_items_fieldset (fs : list string) : str_items (fieldset fs) = ok fs.
Proof.
  unfold str_items, fieldset.
  rewrite <- (app_nil_l (map VStr fs)), strs_from_app. done.
Qed.

(** A path that does not resolve: the tool is not called. *)
Lemma _nmcli_unresolved obj command fields multiline t e :
  _build_fields ([obj; command] ++ fields_or_empty fields) (fields_obj fields)
    multiline = raise e ->
  _nmcli _shell shlex_split obj command fields multiline t = (raise e, t).
Proof. intros Hr. unfold _nmcli, io_bind, io_lift. cbv zeta. by rewrite Hr. Qed.

(** A path that resolves, with a command that does not split. *)
Lemma _nmcli_bad_command obj command fields multiline t ns' fs m e :
  _build_fields ([obj; command] ++ fields_or_empty fields) (fields_obj fields)
    multiline = ok (ns', fieldset fs, m) ->
  command_args shlex_split command = raise e ->
  _nmcli _shell shlex_split obj command fields multiline t = (raise e, t).
Proof.
  intros Hr Hc. unfold _nmcli, io_bind, io_lift. cbv zeta.
  by rewrite Hr, str_items_fieldset, Hc.
Qed.

(** A path that resolves: one call of the tool, then [on_exit]. *)
Lemma _nmcli_resolved obj command fields multiline t ns' fs m extra :
  _build_fields ([obj; command] ++ fields_or_empty fields) (fields_obj fields)
    multiline = ok (ns', fieldset fs, m) ->
  command_args shlex_split command = ok extra ->
  _nmcli _shell shlex_split obj command fields multiline t =
  (rbind (_shell (nmcli_args fs obj ++ extra)) (fun out => on_exit out fs m),
   t ++ [nmcli_args fs obj ++ extra]).
Proof.
  intros Hr Hc. unfold _nmcli, io_bind, io_lift, call_shell. cbv zeta.
  rewrite Hr, str_items_fieldset, Hc.
  by destruct (_shell (nmcli_args fs obj ++ extra)).
Qed.

Lemma trace_grows t (argv : list pyval) : t <> t ++ [argv].
Proof.
  intros H. apply (f_equal length) in H. rewrite length_app in H. simpl in H. lia.
Qed.

End QueryFacts.

(** ** Claims on the query *)

(** The part of C9 that holds.  For every query that invokes the tool with
    [argv] and gets [retcode], [stdout] and [stderr] back: when [retcode] is
    not zero the
    query raises an [Exception] whose message embeds the code and the stderr
    text, and returns no record; when it is zero the outcome is that of
    parsing [stdout] with the resolved FieldSet, in single-line mode the
    records of its lines.  The outcome is an exception or a record
    sequence, never both. *)
Theorem query_exit_code
    (_shell : list pyval -> result (Z * string * string))
    (shlex_split : string -> result (list string))
    (obj command : pyval) (fields : option (list pyval)) (multiline : bool)
    (t : trace) (argv : list pyval) (retcode : Z) (stdout stderr : string) :
  snd (_nmcli _shell shlex_split obj command fields multiline t) = t ++ [argv] ->
  _shell argv = ok (retcode, stdout, stderr) ->
  (retcode <> 0%Z ->
     fst (_nmcli _shell shlex_split obj command fields multiline t) =
     raise (Exception ("nmcli return " ++ Z_to_string retcode
                       ++ " code. STDERR='" ++ stderr ++ "'"))) /\
  (retcode = 0%Z ->
     exists ns' fs,
       _build_fields ([obj; command] ++ fields_or_empty fields)
         (fields_obj fields) multiline = ok (ns', fieldset fs, multiline) /\
       fst (_nmcli _shell shlex_split obj command fields multiline t) =
       parse stdout fs multiline /\
       (multiline = false ->
        fst (_nmcli _shell shlex_split obj command fields multiline t) =
        ok (flat_map (single_line fs) (split "010" stdout)))).
Proof.
  intros Htrace Hshell.
  destruct (_build_fields ([obj; command] ++ fields_or_empty fields)
              (fields_obj fields) multiline) as [e|[[ns' f'] m']] eqn:Hr.
  { rewrite (_nmcli_unresolved _ _ _ _ _ _ _ _ Hr) in Htrace.
    by apply trace_grows in Htrace. }
  destruct (_build_fields_from_table _ _ _ _ _ _ Hr) as (key & fs & _ & _ & ->).
  assert (m' = multiline) as -> by (by eapply _build_fields_multiline).
  destruct (command_args shlex_split command) as [e|extra] eqn:Hc.
  { rewrite (_nmcli_bad_command _ _ _ _ _ _ _ _ _ _ _ Hr Hc) in Htrace.
    by apply trace_grows in Htrace. }
  rewrite (_nmcli_resolved _ _ _ _ _ _ _ _ _ _ _ Hr Hc) in *. simpl in *.
  apply app_inv_head in Htrace. injection Htrace as ->.
  rewrite Hshell. simpl. split.
  - intros Hne. apply Z.eqb_neq in Hne. by rewrite Hne.
  - intros ->. exists ns', fs. repeat split. by intros ->.
Qed.

Lemma query_exit_code_witness :
  (7%Z <> 0%Z ->
     fst (_nmcli (fixed_shell (7%Z, "", "no such device")) plain_shlex
            (VStr "dev") (VStr "status") None false []) =
     raise (Exception ("nmcli return " ++ Z_to_string 7
                       ++ " code. STDERR='" ++ "no such device" ++ "'"))) /\
  (7%Z = 0%Z ->
     exists ns' fs,
       _build_fields ([VStr "dev"; VStr "status"] ++ fields_or_empty None)
         (fields_obj None) false = ok (ns', fieldset fs, false) /\
       fst (_nmcli (fixed_shell (7%Z, "", "no such device")) plain_shlex
              (VStr "dev") (VStr "status") None false []) =
       parse "" fs false /\
       (false = false ->
        fst (_nmcli (fixed_shell (7%Z, "", "no such device")) plain_shlex
               (VStr "dev") (VStr "status") None false []) =
        ok (flat_map (single_line fs) (split "010" "")))).
Proof.
  apply (query_exit_code (fixed_shell (7%Z, "", "no such device")) plain_shlex
           (VStr "dev") (VStr "status") None false []
           [VStr "nmcli"; VStr "--terse"; VStr "--fields";
            VStr "DEVICE,TYPE,STATE"; VStr "dev"; VStr "status"]).
  - reflexivity.
  - reflexivity.
Defined.

(** The same query when the tool exits with zero. *)
Example query_exit_zero :
  _nmcli (fixed_shell (0%Z, text ["eth0:802-3-ethernet:connected"], ""))
    plain_shlex (VStr "dev") (VStr "status") None false []
  = (ok [ {[ "DEVICE" := "eth0"; "TYPE" := "802-3-ethernet";
             "STATE" := "connected" ]} ],
     [[VStr "nmcli"; VStr "--terse"; VStr "--fields";
       VStr "DEVICE,TYPE,STATE"; VStr "dev"; VStr "status"]]).
Proof. vm_compute. reflexivity. Qed.

(** C10 as stated fails: with the same tool, [fields=["id"]] makes the
    query con list resolve the FieldSet of con list id instead of that of
    con, and the records differ. *)
Lemma explicit_fields_change_result :
  _nmcli (fixed_shell (0%Z, text ["a:b:c:d"], "")) plain_shlex
    (VStr "con") (VStr "list") None false []
  <>
  _nmcli (fixed_shell (0%Z, text ["a:b:c:d"], "")) plain_shlex
    (VStr "con") (VStr "list") (Some [VStr "id"]) false [].
Proof.
  intros H. apply (f_equal fst) in H. vm_compute in H. discriminate.
Qed.

(** The two FieldSets of the counterexample. *)
Example explicit_fields_change_fieldset :
  _build_fields [VStr "con"; VStr "list"] (PVal VNone) false
    = ok ([VStr "con"], fieldset ["NAME"; "UUID"; "TYPE"; "TIMESTAMP-REAL"], false) /\
  exists fs,
    _build_fields [VStr "con"; VStr "list"; VStr "id"] (PList [VStr "id"]) false
      = ok ([VStr "con"; VStr "list"; VStr "id"], fieldset fs, false) /\
    length fs = 18.
Proof.
  split; [by vm_compute|]. eexists. split.
  - apply (_build_fields_hit _ "con list id"); reflexivity.
  - reflexivity.
Qed.

(** C10, as amended.  The [fields] argument never becomes the FieldSet; its
    tokens are appended to the lookup path.  Two queries that differ only in
    [fields] resolve the same FieldSet and give the same outcome whenever,
    for both, no path made of the object, the command and one or more of the
    tokens is a key of the table. *)
Theorem explicit_fields_inert
    (_shell : list pyval -> result (Z * string * string))
    (shlex_split : string -> result (list string))
    (obj command : pyval) (f1 f2 : option (list string)) (multiline : bool)
    (t : trace) :
  extends_registered [obj; command] (default [] f1) = false ->
  extends_registered [obj; command] (default [] f2) = false ->
  _build_fields ([obj; command] ++ fields_or_empty (str_fields f1))
    (fields_obj (str_fields f1)) multiline =
  _build_fields ([obj; command] ++ fields_or_empty (str_fields f2))
    (fields_obj (str_fields f2)) multiline /\
  _nmcli _shell shlex_split obj command (str_fields f1) multiline t =
  _nmcli _shell shlex_split obj command (str_fields f2) multiline t.
Proof.
  intros H1 H2.
  assert (Hbase : forall f, extends_registered [obj; command] (default [] f) = false ->
            _build_fields ([obj; command] ++ fields_or_empty (str_fields f))
              (fields_obj (str_fields f)) multiline =
            _build_fields [obj; command] (PVal VNone) multiline).
  { intros f Hf.
    replace (fields_or_empty (str_fields f)) with (map VStr (default [] f))
      by (by destruct f).
    rewrite _build_fields_drop_extra by done.
    apply _build_fields_fields_arg. }
  assert (Heq := eq_trans (Hbase f1 H1) (eq_sym (Hbase f2 H2))).
  split; [done|]. unfold _nmcli, io_bind. cbv zeta. by rewrite Heq.
Qed.

Lemma explicit_fields_inert_witness :
  _build_fields ([VStr "con"; VStr "list"] ++ fields_or_empty (str_fields None))
    (fields_obj (str_fields None)) false =
  _build_fields ([VStr "con"; VStr "list"] ++ fields_or_empty (str_fields (Some ["uuid"; "x"])))
    (fields_obj (str_fields (Some ["uuid"; "x"]))) false /\
  _nmcli (fixed_shell (0%Z, text ["a:b:c:d"], "")) plain_shlex
    (VStr "con") (VStr "list") (str_fields None) false [] =
  _nmcli (fixed_shell (0%Z, text ["a:b:c:d"], "")) plain_shlex
    (VStr "con") (VStr "list") (str_fields (Some ["uuid"; "x"])) false [].
Proof.
  apply (explicit_fields_inert (fixed_shell (0%Z, text ["a:b:c:d"], ""))
           plain_shlex (VStr "con") (VStr "list") None (Some ["uuid"; "x"])).
  - reflexivity.
  - reflexivity.
Defined.

(** ** The output parser *)

Section Parser.

Implicit Types (line stdout : string) (fields : list string) (row : record).

Lemma split_not_nil sep s : split sep s <> [].
Proof.
  destruct s as [|c s]; simpl; [done|].
  destruct (Ascii.eqb c sep); [done|]. by destruct (split sep s).
Qed.

Lemma split1_not_nil sep s : split1 sep s <> [].
Proof.
  destruct s as [|c s]; simpl; [done|].
  destruct (Ascii.eqb c sep); [done|]. by destruct (split1 sep s).
Qed.

(** A line without the separator is not cut. *)
Lemma split1_no_sep sep s : mem_ascii sep s = false -> split1 sep s = [s].
Proof.
  unfold mem_ascii. induction s as [|c s IH]; simpl; [done|].
  rewrite orb_false_iff. intros [Hc Hs].
  rewrite Ascii.eqb_sym, Hc. by rewrite IH.
Qed.

(** A line without a colon leaves the row as it is. *)
Lemma multiline_line_no_colon row line :
  mem_ascii ":" line = false -> multiline_line row line = ok row.
Proof. intros H. unfold multiline_line. by rewrite split1_no_sep. Qed.

(** [dict(pairs)] as a map built from the list read backwards. *)
Lemma fold_insert_rev (pairs : list (string * string)) (d : record) :
  fold_left (fun d kv => <[kv.1 := kv.2]> d) pairs d =
  foldr (fun kv d => <[kv.1 := kv.2]> d) d (rev pairs).
Proof.
  revert d. induction pairs as [|kv pairs IH]; intros d; simpl; [done|].
  by rewrite IH, foldr_app.
Qed.

Lemma rev_is_reverse {A} (l : list A) : rev l = reverse l.
Proof. unfold reverse. by rewrite rev_alt. Qed.

Lemma dict_of_list_to_map (pairs : list (string * string)) :
  dict_of pairs = list_to_map (reverse pairs).
Proof.
  unfold dict_of. rewrite fold_insert_rev, rev_is_reverse.
  induction (reverse pairs) as [|[k v] l IH]; simpl; [done|]. by rewrite IH.
Qed.

(** Last write wins. *)
Lemma dict_of_last (pairs : list (string * string)) k v :
  dict_of (pairs ++ [(k, v)]) !! k = Some v.
Proof.
  unfold dict_of. rewrite fold_left_app. simpl. apply lookup_insert_eq.
Qed.

Lemma dict_of_combine_lookup fields (values : list string) i f :
  NoDup fields -> length values = length fields ->
  fields !! i = Some f ->
  dict_of (combine fields values) !! f = values !! i.
Proof.
  intros Hnd Hlen Hf.
  assert (Hi : (i < length values)%nat)
    by (rewrite Hlen; by eapply lookup_lt_Some).
  destruct (lookup_lt_is_Some_2 _ _ Hi) as [v Hv]. rewrite Hv.
  rewrite dict_of_list_to_map. apply elem_of_list_to_map_1.
  - rewrite fmap_reverse, reverse_Permutation.
    change (combine fields values) with (zip fields values).
    by rewrite fst_zip by lia.
  - rewrite elem_of_reverse. apply list_elem_of_lookup. exists i.
    change (combine fields values) with (zip fields values).
    rewrite lookup_zip_with, Hf. simpl. by rewrite Hv.
Qed.

Lemma dict_of_combine_dom fields (values : list string) :
  length values = length fields ->
  dom (dict_of (combine fields values)) = list_to_set fields.
Proof.
  intros Hlen. rewrite dict_of_list_to_map, dom_list_to_map_L.
  rewrite fmap_reverse. change (combine fields values) with (zip fields values).
  rewrite fst_zip by lia. apply set_eq. intros x.
  by rewrite !elem_of_list_to_set, elem_of_reverse.
Qed.

(** The multiline loop on lines that all unpack. *)
Lemma multiline_rows_dotted (lines : list string) row :
  forallb dotted_key lines = true ->
  multiline_rows row lines =
  ok (fold_left (fun d kv => <[kv.1 := kv.2]> d) (omap assignment lines) row).
Proof.
  revert row. induction lines as [|line lines IH]; intros row; simpl; [done|].
  rewrite andb_true_iff. intros [Hline Hrest].
  unfold multiline_line, dotted_key, assignment in *.
  destruct (split1 ":" line) as [|k [|v [|? ?]]]; simpl; auto.
  destruct (split "." k) as [|a [|b [|? ?]]]; simpl in *; try done.
  by apply IH.
Qed.

(** On such output the parse is the one row of all assignments in order. *)
Lemma multiline_parse_dotted stdout fields :
  forallb dotted_key (split "010" stdout) = true ->
  parse stdout fields true =
  ok [dict_of (omap assignment (split "010" stdout))].
Proof.
  intros H. unfold parse. by rewrite multiline_rows_dotted.
Qed.

End Parser.

(** ** Claims on the parser *)

(** C7.  In single-line mode the parse is the concatenation, line by line,
    of one record for a line whose colon-split column count is the length
    of the FieldSet, mapping each field name to the column at its position,
    and of no record for any other line; a blank line has one column.  With
    fields A, B, C the text of the lines 1:2:3 and 4:5:6 gives the two
    records, and the line 1:2 gives none. *)
Theorem single_line_parse :
  (forall (stdout : string) (fields : list string),
     NoDup fields ->
     exists rows : list (list record),
       parse stdout fields false = ok (concat rows) /\
       Forall2
         (fun line row =>
            if decide (length (split ":" line) = length fields)
            then exists r, row = [r] /\
                   dom r = list_to_set fields /\
                   forall i f, fields !! i = Some f -> r !! f = split ":" line !! i
            else row = [])
         (split "010" stdout) rows) /\
  (forall fields : list string,
     length fields <> 1 -> single_line fields "" = []) /\
  parse (text ["1:2:3"; "4:5:6"]) ["A"; "B"; "C"] false
    = ok [ {[ "A" := "1"; "B" := "2"; "C" := "3" ]};
           {[ "A" := "4"; "B" := "5"; "C" := "6" ]} ] /\
  parse (text ["1:2"]) ["A"; "B"; "C"] false = ok [].
Proof.
  split; [|split; [|split]].
  - intros stdout fields Hnd.
    exists (map (single_line fields) (split "010" stdout)). split.
    + unfold parse. by rewrite flat_map_concat_map.
    + induction (split "010" stdout) as [|line lines IH]; simpl;
        constructor; [|done].
      unfold single_line. case_decide as Hlen.
      * rewrite (proj2 (Nat.eqb_eq _ _) Hlen). eexists. split; [done|].
        split; [by apply dict_of_combine_dom|].
        intros i f Hf. by apply dict_of_combine_lookup.
      * by rewrite (proj2 (Nat.eqb_neq _ _) Hlen).
  - intros fields Hlen. unfold single_line. simpl.
    destruct fields as [|f [|g fields]]; simpl; done.
  - by vm_compute.
  - by vm_compute.
Qed.

Lemma single_line_parse_witness :
  exists rows : list (list record),
    parse (text ["eth0:802-3-ethernet:connected"; "lo"])
      ["DEVICE"; "TYPE"; "STATE"] false = ok (concat rows) /\
    Forall2
      (fun line row =>
         if decide (length (split ":" line) = length ["DEVICE"; "TYPE"; "STATE"])
         then exists r, row = [r] /\
                dom r = list_to_set ["DEVICE"; "TYPE"; "STATE"] /\
                forall i f, ["DEVICE"; "TYPE"; "STATE"] !! i = Some f ->
                            r !! f = split ":" line !! i
         else row = [])
      (split "010" (text ["eth0:802-3-ethernet:connected"; "lo"])) rows.
Proof.
  apply (proj1 single_line_parse
           (text ["eth0:802-3-ethernet:connected"; "lo"])
           ["DEVICE"; "TYPE"; "STATE"]).
  apply (bool_decide_unpack _). vm_compute. reflexivity.
Defined.

(** C3 fails on the code.  A line with a colon whose key has no dot is not
    skipped: unpacking [multikey.split('.')] into two names raises
    [ValueError], and the parse ends there, well-formed lines or not. *)
Theorem multiline_key_without_dot_raises :
  multiline_line {[ "id" := "home" ]} "nodot:value"
    = raise (ValueError "need more than 1 value to unpack") /\
  parse (text ["connection.id:home"; "nodot:value"; "ipv4.addr:192.168.1.2"])
    [] true
    = raise (ValueError "need more than 1 value to unpack").
Proof. by vm_compute. Qed.

(** The half of C3 that holds: a line without a colon is skipped. *)
Example multiline_skips_line_without_colon :
  parse (text ["connection.id:home"; "no colon here"; "ipv4.addr:192.168.1.2"])
    [] true
  = ok [ {[ "id" := "home"; "addr" := "192.168.1.2" ]} ].
Proof. by vm_compute. Qed.

(** C8 fails on the code.  Not every stdout gives one record: on a line
    with a colon whose key has no dot, or more than one, the parse raises
    and returns no sequence at all. *)
Theorem multiline_parse_not_total :
  (forall rows, parse (text ["a:b"]) [] true <> ok rows) /\
  parse (text ["a:b"]) [] true
    = raise (ValueError "need more than 1 value to unpack") /\
  parse (text ["ipv4.dns.search:lan"]) [] true
    = raise (ValueError "too many values to unpack").
Proof. split; [|by vm_compute]. intros rows. by vm_compute. Qed.

(** The rest of C8 on the code: the example of the specification, one empty
    record for empty output, and the last write winning across sections. *)
Example multiline_example :
  parse (text ["connection.id:home"; "ipv4.addr:192.168.1.2"]) [] true
  = ok [ {[ "id" := "home"; "addr" := "192.168.1.2" ]} ].
Proof. by vm_compute. Qed.

Example multiline_empty : parse "" [] true = ok [ ∅ ].
Proof. by vm_compute. Qed.

Example multiline_collision :
  parse (text ["ipv4.method:auto"; "ipv6.method:ignore"]) [] true
  = ok [ {[ "method" := "ignore" ]} ].
Proof. by vm_compute. Qed.

(** ** Actions *)

Section ActionFacts.

Variable _shell : list pyval -> result (Z * string * string).
Variable shlex_split : string -> result (list string).
Variables cmdname command : string.

Implicit Types (possibleargs args : pyobj) (kwargs : kwargs_t) (t : trace).

(** Validation that fails: the tool is not called. *)
Lemma run_action_invalid possibleargs args kwargs t e :
  build_cmd command possibleargs args kwargs = raise e ->
  run_action _shell shlex_split cmdname command possibleargs args kwargs t
  = (raise e, t).
Proof. intros H. unfold run_action, io_bind, io_lift. by rewrite H. Qed.

Lemma build_cmd_invalid possibleargs args kwargs e :
  verify_args command possibleargs (candidates args kwargs) = raise e ->
  build_cmd command possibleargs args kwargs = raise e.
Proof. intros H. unfold build_cmd. by rewrite H. Qed.

(** Validation that succeeds returns every candidate, normalized. *)
Lemma verify_args_ok possibleargs (l out : list pyval) :
  verify_args command possibleargs l = ok out -> out = map sanitize_arg l.
Proof.
  revert out. induction l as [|a l IH]; intros out; simpl.
  - by inversion 1.
  - unfold verify_arg.
    destruct (py_contains (usableargs possibleargs) (sanitize_arg a))
      as [e|[|]]; simpl; try done.
    destruct (verify_args command possibleargs l) as [e|r]; simpl; [done|].
    inversion 1. by rewrite (IH r).
Qed.

(** With a list of allowed arguments, the first candidate outside it
    raises, and the message is built from it. *)
Lemma verify_args_list_invalid (allowed l : list pyval) :
  (exists tok, In tok l /\
     existsb (py_eq (sanitize_arg tok)) (map sanitize_arg allowed) = false) ->
  exists tok, In tok l /\
    existsb (py_eq (sanitize_arg tok)) (map sanitize_arg allowed) = false /\
    verify_args command (PList allowed) l =
    raise (Exception (invalid_message command (PList allowed) (sanitize_arg tok))).
Proof.
  induction l as [|a l IH]; intros (tok & Hin & Hout); [by destruct Hin|].
  destruct (existsb (py_eq (sanitize_arg a)) (map sanitize_arg allowed)) eqn:Ha.
  - destruct Hin as [->|Hin]; [congruence|].
    destruct IH as (tok' & Hin' & Hout' & Hv); [by eauto|].
    exists tok'. split; [by right|]. split; [done|].
    simpl. unfold verify_arg at 1. simpl. rewrite Ha. simpl. by rewrite Hv.
  - exists a. split; [by left|]. split; [done|].
    simpl. unfold verify_arg. simpl. by rewrite Ha.
Qed.

(** With [None] for the allowed arguments, the membership test itself
    raises on the first candidate. *)
Lemma verify_args_none_raises (a : pyval) (l : list pyval) :
  verify_args command (PVal VNone) (a :: l) =
  raise (TypeError "argument of type 'NoneType' is not iterable").
Proof. reflexivity. Qed.

(** A call without candidates passes validation whatever is allowed. *)
Lemma build_cmd_no_token possibleargs :
  build_cmd command possibleargs (PVal VNone) [] = ok command.
Proof. reflexivity. Qed.

End ActionFacts.

(** ** Claims on the actions *)

(** The part of C4 that holds.  For every action whose allowed arguments
    are a list, a call in which some normalized candidate token (positional, or the name of a
    keyword) is not among the normalized allowed arguments raises an
    [Exception] whose message names such a token, the command and the
    allowed arguments as registered, and leaves the log of tool calls as it
    was.  Whatever the allowed arguments are, a call that validation rejects
    leaves the log as it was.  nm.enable("asdasd") and con.list(food=8302)
    raise in this way. *)
Theorem invalid_argument_rejected :
  (forall (_shell : list pyval -> result (Z * string * string))
          (shlex_split : string -> result (list string))
          (cmdname command : string) (allowed : list pyval)
          (args : pyobj) (kwargs : kwargs_t) (t : trace),
     (exists tok, In tok (candidates args kwargs) /\
        existsb (py_eq (sanitize_arg tok)) (map sanitize_arg allowed) = false) ->
     exists tok, In tok (candidates args kwargs) /\
       existsb (py_eq (sanitize_arg tok)) (map sanitize_arg allowed) = false /\
       run_action _shell shlex_split cmdname command (PList allowed) args kwargs t
       = (raise (Exception
            (py_str (sanitize_arg tok) ++ " is not a valid argument for '"
             ++ command ++ "'. Parameters: " ++ py_str_obj (PList allowed))),
          t)) /\
  (forall _shell shlex_split cmdname command (possibleargs args : pyobj)
          (kwargs : kwargs_t) (t : trace) (e : exn),
     verify_args command possibleargs (candidates args kwargs) = raise e ->
     run_action _shell shlex_split cmdname command possibleargs args kwargs t
     = (raise e, t)) /\
  (forall _shell shlex_split t,
     call_action _shell shlex_split nm "enable" (PVal (VStr "asdasd")) [] t
     = (raise (Exception
          "asdasd is not a valid argument for 'enable'. Parameters: [True, False]"),
        t)) /\
  (forall _shell shlex_split t,
     call_action _shell shlex_split con "list" (PVal VNone)
       [("food", PVal (VInt 8302))] t
     = (raise (Exception
          "food is not a valid argument for 'list'. Parameters: [None, 'id', 'uuid']"),
        t)).
Proof.
  split; [|split; [|split]].
  - intros _shell shlex_split cmdname command allowed args kwargs t Hbad.
    destruct (verify_args_list_invalid command allowed _ Hbad)
      as (tok & Hin & Hout & Hv).
    exists tok. split; [done|]. split; [done|].
    apply run_action_invalid. by apply build_cmd_invalid.
  - intros. apply run_action_invalid. by apply build_cmd_invalid.
  - intros. by vm_compute.
  - intros. by vm_compute.
Qed.

Lemma invalid_argument_rejected_witness :
  exists tok, In tok (candidates (PList [VStr "ID"; VStr "Name"]) []) /\
    existsb (py_eq (sanitize_arg tok))
      (map sanitize_arg [VStr "id"; VStr "uuid"]) = false /\
    run_action (fixed_shell (0%Z, "", "")) plain_shlex "con" "down"
      (PList [VStr "id"; VStr "uuid"]) (PList [VStr "ID"; VStr "Name"]) [] []
    = (raise (Exception
         (py_str (sanitize_arg tok) ++ " is not a valid argument for '"
          ++ "down" ++ "'. Parameters: "
          ++ py_str_obj (PList [VStr "id"; VStr "uuid"]))),
       []).
Proof.
  apply (proj1 invalid_argument_rejected (fixed_shell (0%Z, "", "")) plain_shlex
           "con" "down" [VStr "id"; VStr "uuid"]
           (PList [VStr "ID"; VStr "Name"]) [] []).
  exists (VStr "Name"). split.
  - simpl. right. left. reflexivity.
  - reflexivity.
Defined.

(** C5 fails on the code.  status is registered with [None] on nm and on
    dev, and a call that supplies a token, [None] in a list included, does
    not raise the validation error: [arg not in usableargs] raises a
    [TypeError] that names neither the token nor the command. *)
Theorem status_token_raises_type_error :
  registered nm "status" = Some (PVal VNone) /\
  registered dev "status" = Some (PVal VNone) /\
  (forall _shell shlex_split t,
     call_action _shell shlex_split nm "status" (PVal (VStr "x")) [] t
     = (raise (TypeError "argument of type 'NoneType' is not iterable"), t)) /\
  (forall _shell shlex_split t,
     call_action _shell shlex_split dev "status" (PList [VNone]) [] t
     = (raise (TypeError "argument of type 'NoneType' is not iterable"), t)).
Proof. repeat split; intros; by vm_compute. Qed.

(** The half of C5 that holds: without a token, status passes validation
    and the query runs. *)
Example status_without_token :
  build_cmd "status" (PVal VNone) (PVal VNone) [] = ok "status" /\
  snd (call_action (fixed_shell (0%Z, "", "")) plain_shlex nm "status"
         (PVal VNone) [] [])
  = [[VStr "nmcli"; VStr "--terse"; VStr "--fields";
      VStr "RUNNING,STATE,WIFI-HARDWARE,WIFI,WWAN-HARDWARE,WWAN";
      VStr "nm"; VStr "status"]].
Proof. by vm_compute. Qed.

(** C6 as stated fails: the names of keywords are normalized.  If they
    were validated as given, the validated tokens would hold each name
    unchanged; the keyword ID comes out as id. *)
Lemma keyword_names_are_normalized :
  ~ (forall (command : string) (possibleargs args : pyobj) (kwargs : kwargs_t)
            (out : list pyval),
       verify_args command possibleargs (candidates args kwargs) = ok out ->
       forall k, In k (map fst kwargs) -> In (VStr k) out).
Proof.
  intros H.
  specialize (H "up" (strs ["id"; "uuid"; "iface"; "ap"]) (PVal VNone)
                [("ID", PVal (VStr "eth0"))] [VStr "id"] eq_refl "ID").
  simpl in H. destruct H as [H|[]]; [by left|]. discriminate.
Qed.

(** C6, as amended.  Normalization maps a boolean to true or false, an
    integer to its decimal string, a string to its lower-cased form and
    [None] to itself.  It is applied to every entry of the allowed
    arguments, and to every candidate token: the positional ones and the
    names of the keywords, which are candidates too.  The value of a
    keyword is normalized where it is written after its name. *)
Theorem normalization_applied :
  (forall b : bool, sanitize_arg (VBool b) = VStr (if b then "true" else "false")) /\
  (forall z : Z, sanitize_arg (VInt z) = VStr (Z_to_string z)) /\
  (forall s : string, sanitize_arg (VStr s) = VStr (lower s)) /\
  sanitize_arg VNone = VNone /\
  (forall allowed : list pyval,
     usableargs (PList allowed) = PList (map sanitize_arg allowed)) /\
  (forall (args : pyobj) (kwargs : kwargs_t) (k : string),
     In k (map fst kwargs) -> In (VStr k) (candidates args kwargs)) /\
  (forall (command : string) (possibleargs args : pyobj) (kwargs : kwargs_t)
          (out : list pyval),
     verify_args command possibleargs (candidates args kwargs) = ok out ->
     out = map sanitize_arg (candidates args kwargs)) /\
  (forall (kwargs : kwargs_t) (k : string) (v : pyobj),
     kw_lookup kwargs (VStr k) = Some v ->
     option_of kwargs (VStr k)
     = VStr (k ++ " " ++ py_str_obj (sanitize_args v))).
Proof.
  repeat split.
  - by intros [|].
  - intros args kwargs k Hk. unfold candidates. apply in_or_app. right.
    rewrite in_map_iff in *. destruct Hk as (kv & <- & Hkv). eauto.
  - intros command possibleargs args kwargs out. apply verify_args_ok.
  - intros kwargs k v Hv. unfold option_of. by rewrite Hv.
Qed.

Lemma normalization_applied_witness :
  [VStr "id"; VStr "uuid"]
  = map sanitize_arg (candidates (PVal (VStr "ID")) [("UUID", PVal (VInt 7))]).
Proof.
  apply (proj1 (proj2 (proj2 (proj2 (proj2 (proj2 (proj2 normalization_applied))))))
           "up" (strs ["id"; "uuid"; "iface"; "ap"]) (PVal (VStr "ID"))
           [("UUID", PVal (VInt 7))] [VStr "id"; VStr "uuid"]).
  reflexivity.
Defined.

(** What the normalization yields on sample tokens, and the command
    strings of up with a keyword. *)
Example sanitize_samples :
  map sanitize_arg [VBool true; VBool false; VInt 8302; VInt (-4); VStr "Eth0"; VNone]
  = [VStr "true"; VStr "false"; VStr "8302"; VStr "-4"; VStr "eth0"; VNone].
Proof. by vm_compute. Qed.

Example up_id_eth0 :
  build_cmd "up" (strs ["id"; "uuid"; "iface"; "ap"]) (PVal VNone)
    [("id", PVal (VStr "ETH0"))] = ok "up id eth0" /\
  build_cmd "up" (strs ["id"; "uuid"; "iface"; "ap"]) (PVal VNone)
    [("ID", PVal (VStr "ETH0"))] = ok "up id".
Proof. by vm_compute. Qed.

(** * Further properties *)

(** ** Strings *)

Section Strings.

Implicit Types (s a b : string) (c sep : ascii).

Lemma append_cons c a b : (String c a ++ b)%string = String c (a ++ b).
Proof. reflexivity. Qed.

Lemma append_empty_r s : (s ++ "")%string = s.
Proof. induction s as [|c s IH]; [done|]. by rewrite append_cons, IH. Qed.

Lemma append_assoc_str a b s : ((a ++ b) ++ s)%string = (a ++ b ++ s)%string.
Proof. induction a as [|c a IH]; [done|]. by rewrite !append_cons, IH. Qed.

Lemma append_nil_l s : ("" ++ s)%string = s.
Proof. reflexivity. Qed.

Lemma mem_ascii_cons c c' s :
  mem_ascii c (String c' s) = Ascii.eqb c c' || mem_ascii c s.
Proof. reflexivity. Qed.

Lemma mem_ascii_append c a b :
  mem_ascii c (a ++ b) = mem_ascii c a || mem_ascii c b.
Proof.
  induction a as [|c' a IH]; [done|].
  by rewrite append_cons, !mem_ascii_cons, IH, orb_assoc.
Qed.

(** A string without the separator is one piece. *)
Lemma split_no_sep sep s : mem_ascii sep s = false -> split sep s = [s].
Proof.
  induction s as [|c s IH]; [done|].
  rewrite mem_ascii_cons, orb_false_iff. intros [Hc Hs].
  simpl. rewrite Ascii.eqb_sym, Hc. by rewrite IH.
Qed.

(** Cutting at a separator cuts both sides on their own. *)
Lemma split_app_sep sep a b :
  split sep (a ++ String sep b) = split sep a ++ split sep b.
Proof.
  induction a as [|c a IH].
  - rewrite append_nil_l. simpl. by rewrite Ascii.eqb_refl.
  - rewrite append_cons. simpl.
    destruct (Ascii.eqb c sep); [by rewrite IH|].
    rewrite IH. destruct (split sep a) as [|w ws] eqn:Hs; [|done].
    by apply split_not_nil in Hs.
Qed.

Lemma split1_app_sep sep a b :
  mem_ascii sep a = false -> split1 sep (a ++ String sep b) = [a; b].
Proof.
  induction a as [|c a IH].
  - intros _. rewrite append_nil_l. simpl. by rewrite Ascii.eqb_refl.
  - rewrite mem_ascii_cons, orb_false_iff. intros [Hc Ha].
    rewrite append_cons. simpl. rewrite Ascii.eqb_sym, Hc. by rewrite IH.
Qed.

Lemma concat_with_cons (sep x : string) (l : list string) :
  l <> [] -> concat_with sep (x :: l) = (x ++ sep ++ concat_with sep l)%string.
Proof. by destruct l. Qed.

(** Joining what [split] cut gives the string back. *)
Lemma concat_split sep s :
  concat_with (String sep "") (split sep s) = s.
Proof.
  induction s as [|c s IH]; [done|]. simpl.
  destruct (Ascii.eqb c sep) eqn:Hc.
  - apply Ascii.eqb_eq in Hc as ->.
    rewrite concat_with_cons by apply split_not_nil.
    by rewrite IH, append_nil_l, append_cons, append_nil_l.
  - destruct (split sep s) as [|w ws] eqn:Hs; [by apply split_not_nil in Hs|].
    rewrite <- IH. destruct ws as [|w' ws]; [done|].
    by rewrite !concat_with_cons, append_cons by done.
Qed.

(** Cutting what was joined from pieces without the separator gives the
    pieces back. *)
Lemma split_concat sep (l : list string) :
  l <> [] -> Forall (fun x => mem_ascii sep x = false) l ->
  split sep (concat_with (String sep "") l) = l.
Proof.
  induction l as [|x l IH]; [done|]. intros _ Hall.
  apply Forall_cons in Hall as [Hx Hl].
  destruct l as [|y l]; [by apply split_no_sep|].
  rewrite concat_with_cons by done.
  rewrite append_cons, append_nil_l, split_app_sep, split_no_sep by done.
  simpl. f_equal. by apply IH.
Qed.

Lemma mem_ascii_concat c (glue : string) (l : list string) :
  mem_ascii c glue = false -> Forall (fun x => mem_ascii c x = false) l ->
  mem_ascii c (concat_with glue l) = false.
Proof.
  intros Hsep. induction l as [|x l IH]; [done|]. intros Hall.
  apply Forall_cons in Hall as [Hx Hl].
  destruct l as [|y l]; [done|].
  rewrite concat_with_cons by done.
  rewrite !mem_ascii_append, Hx, Hsep. simpl. by apply IH.
Qed.

Lemma text_cons s (lines : list string) :
  text (s :: lines) = (s ++ String "010" (text lines))%string.
Proof.
  unfold text, LF. destruct lines as [|l lines].
  - simpl. done.
  - rewrite !map_cons.
    rewrite (concat_with_cons "" (s ++ String "010" "")) by done.
    by rewrite append_nil_l, append_assoc_str, append_cons, append_nil_l.
Qed.

(** The lines of a text: its lines, and the empty one after the last line
    feed. *)
Lemma split_text (lines : list string) :
  Forall (fun l => mem_ascii "010" l = false) lines ->
  split "010" (text lines) = lines ++ [""].
Proof.
  induction lines as [|l lines IH]; intros Hall; [done|].
  apply Forall_cons in Hall as [Hl Hrest].
  rewrite text_cons, split_app_sep, split_no_sep by done.
  simpl. f_equal. by apply IH.
Qed.

Lemma lower_ascii_idemp c : lower_ascii (lower_ascii c) = lower_ascii c.
Proof. by destruct c as [[] [] [] [] [] [] [] []]. Qed.

Lemma lower_idemp s : lower (lower s) = lower s.
Proof.
  induction s as [|c s IH]; simpl; [done|]. by rewrite lower_ascii_idemp, IH.
Qed.

Lemma lower_uint (u : Decimal.uint) :
  lower (NilEmpty.string_of_uint u) = NilEmpty.string_of_uint u.
Proof. induction u; simpl; by rewrite ?IHu. Qed.

(** A decimal numeral has no letter to lower. *)
Lemma lower_Z_to_string (z : Z) : lower (Z_to_string z) = Z_to_string z.
Proof.
  unfold Z_to_string, NilZero.string_of_int, NilZero.string_of_uint.
  destruct (Z.to_int z) as [u|u]; destruct u; simpl; by rewrite ?lower_uint.
Qed.

End Strings.

(** ** More on the resolver *)

(** X1.  Whatever [_build_fields] returns was read from the table: the path
    that comes back is the given path without some trailing items, it joins
    to a key of the table, the FieldSet is that key's, and the flag is the
    caller's. *)
Theorem resolve_sound (ns : list pyval) (fields : pyobj) (multiline : bool)
    (ns' : list pyval) (fs' : pyobj) (m' : bool) :
  _build_fields ns fields multiline = ok (ns', fs', m') ->
  exists (dropped : list pyval) (key : string) (fs : list string),
    ns = ns' ++ dropped /\
    join " " ns' = ok key /\
    NMCLI_FIELDS !! key = Some fs /\
    fs' = fieldset fs /\
    m' = multiline.
Proof.
  induction ns as [|x ns IH] using rev_ind; [done|].
  rewrite _build_fields_snoc.
  destruct (join " " (ns ++ [x])) as [e|key] eqn:Hj; [done|].
  destruct (NMCLI_FIELDS !! key) as [fs|] eqn:Hk.
  - inversion 1; subst. exists [], key, fs. by rewrite app_nil_r.
  - intros Hr. destruct (IH Hr) as (dropped & key' & fs & -> & ? & ? & ? & ?).
    exists (dropped ++ [x]), key', fs. by rewrite app_assoc.
Qed.

Lemma resolve_sound_witness :
  exists (dropped : list pyval) (key : string) (fs : list string),
    [VStr "dev"; VStr "wifi list"] = [VStr "dev"] ++ dropped /\
    join " " [VStr "dev"] = ok key /\
    NMCLI_FIELDS !! key = Some fs /\
    fieldset ["DEVICE"; "TYPE"; "STATE"] = fieldset fs /\
    false = false.
Proof.
  apply (resolve_sound [VStr "dev"; VStr "wifi list"] (PVal VNone) false).
  vm_compute. reflexivity.
Defined.

(** X2.  A path of strings none of whose leading parts is a key of the
    table does not resolve: the lookup ends in the [IndexError] of
    [pop] on the empty list, and the query raises it without calling the
    tool. *)
Theorem resolve_unregistered_raises
    (_shell : list pyval -> result (Z * string * string))
    (shlex_split : string -> result (list string))
    (obj command : string) (f : option (list string)) (multiline : bool)
    (t : trace) :
  extends_registered [] (obj :: command :: default [] f) = false ->
  _build_fields (map VStr (obj :: command :: default [] f))
    (fields_obj (str_fields f)) multiline
  = raise (IndexError "pop from empty list") /\
  _nmcli _shell shlex_split (VStr obj) (VStr command) (str_fields f) multiline t
  = (raise (IndexError "pop from empty list"), t).
Proof.
  intros Hno.
  assert (Hr : _build_fields (map VStr (obj :: command :: default [] f))
                 (fields_obj (str_fields f)) multiline
               = raise (IndexError "pop from empty list")).
  { rewrite <- (app_nil_l (map VStr _)).
    rewrite _build_fields_drop_extra by done. apply _build_fields_nil. }
  split; [done|]. apply _nmcli_unresolved.
  replace (fields_or_empty (str_fields f)) with (map VStr (default [] f))
    by (by destruct f).
  exact Hr.
Qed.

Lemma resolve_unregistered_raises_witness :
  _build_fields (map VStr ("wifi" :: "list" :: default [] None))
    (fields_obj (str_fields None)) false
  = raise (IndexError "pop from empty list") /\
  _nmcli (fixed_shell (0%Z, "", "")) plain_shlex (VStr "wifi") (VStr "list")
    (str_fields None) false []
  = (raise (IndexError "pop from empty list"), []).
Proof.
  apply (resolve_unregistered_raises (fixed_shell (0%Z, "", "")) plain_shlex
           "wifi" "list" None false []).
  vm_compute. reflexivity.
Defined.

(** X3.  On the list it is given, the lookup returns the longest leading
    part that is a key: a path of strings that continues a key by tokens
    completing no longer key resolves to that key's FieldSet and path. *)
Theorem resolve_longest_prefix (path rest : list string) (fs : list string)
    (fields : pyobj) (multiline : bool) :
  NMCLI_FIELDS !! concat_with " " path = Some fs ->
  extends_registered (map VStr path) rest = false ->
  _build_fields (map VStr (path ++ rest)) fields multiline
  = ok (map VStr path, fieldset fs, multiline).
Proof.
  intros Hk Hno. rewrite map_app.
  apply (_build_fields_nearest _ _ (concat_with " " path)); [|done..].
  apply join_strs.
Qed.

Lemma resolve_longest_prefix_witness :
  _build_fields (map VStr (["con"; "list"; "id"] ++ ["home"; "now"]))
    (PVal VNone) true
  = ok (map VStr ["con"; "list"; "id"],
        fieldset (default [] (NMCLI_FIELDS !! "con list id")), true).
Proof.
  apply (resolve_longest_prefix ["con"; "list"; "id"] ["home"; "now"]).
  - vm_compute. reflexivity.
  - vm_compute. reflexivity.
Defined.

(** X4.  The default [command=None] cannot be looked up: [join] raises a
    [TypeError] on the second item of the path, whatever the object string,
    the extra tokens and the flag, and the tool is not called. *)
Theorem query_without_command_raises
    (_shell : list pyval -> result (Z * string * string))
    (shlex_split : string -> result (list string))
    (obj : string) (fields : option (list pyval)) (multiline : bool)
    (t : trace) :
  _nmcli _shell shlex_split (VStr obj) VNone fields multiline t
  = (raise (TypeError "sequence item 1: expected string, NoneType found"), t).
Proof.
  apply _nmcli_unresolved. by rewrite _build_fields_body.
Qed.

(** The lookup of an action of a registered object. *)
Lemma _build_fields_object (cmdname cmd : string) (multiline : bool) :
  In cmdname objects ->
  exists fs,
    NMCLI_FIELDS !! action_key cmdname cmd = Some fs /\
    _build_fields [VStr cmdname; VStr cmd] (PVal VNone) multiline
    = ok (action_path cmdname cmd, fieldset fs, multiline).
Proof.
  intros Hobj.
  assert (Hkey : forall k, is_Some (NMCLI_FIELDS !! k) -> In k registered_keys)
    by (intros k; apply registered_keys_table).
  change [VStr cmdname; VStr cmd] with ([VStr cmdname] ++ [VStr cmd]).
  rewrite _build_fields_snoc.
  change (join " " ([VStr cmdname] ++ [VStr cmd]))
    with (ok (cmdname ++ " " ++ cmd)%string).
  unfold action_key, action_path.
  destruct (NMCLI_FIELDS !! (cmdname ++ " " ++ cmd)%string) as [fs|] eqn:Hk.
  - assert (Hin := Hkey _ (mk_is_Some _ _ Hk)).
    exists fs.
    destruct Hobj as [<-|[<-|[<-|[]]]];
      cbv [String.append] in Hin, Hk |- *;
      simpl in Hin; destruct Hin as [H|[H|[H|[H|[H|[]]]]]];
      try discriminate H; injection H as <-; simpl; by split.
  - assert (Hno : String.eqb cmdname "con"
                  && (String.eqb cmd "status" || String.eqb cmd "list id") = false).
    { destruct (String.eqb cmdname "con") eqn:Hc; [|done].
      apply String.eqb_eq in Hc as ->.
      destruct (String.eqb cmd "status") eqn:H1;
        [apply String.eqb_eq in H1 as ->; by vm_compute in Hk|].
      destruct (String.eqb cmd "list id") eqn:H2;
        [apply String.eqb_eq in H2 as ->; by vm_compute in Hk|].
      done. }
    rewrite Hno.
    destruct Hobj as [<-|[<-|[<-|[]]]]; eexists; (split; [by vm_compute|]).
    + by apply (_build_fields_hit _ "nm"); vm_compute.
    + by apply (_build_fields_hit _ "dev"); vm_compute.
    + by apply (_build_fields_hit _ "con"); vm_compute.
Qed.

(** X5.  The FieldSet of an action.  For an object of the registries (nm,
    dev, con) and any command string, the lookup succeeds: it returns the
    FieldSet of the object, except for con with the command strings status
    and list id, which are keys together with con. *)
Theorem action_fieldset (cmdname cmd : string) (multiline : bool) :
  In cmdname objects ->
  exists fs,
    NMCLI_FIELDS !! action_key cmdname cmd = Some fs /\
    _build_fields [VStr cmdname; VStr cmd] (PVal VNone) multiline
    = ok (action_path cmdname cmd, fieldset fs, multiline).
Proof. apply _build_fields_object. Qed.

Lemma action_fieldset_witness :
  exists fs,
    NMCLI_FIELDS !! action_key "con" "up id home" = Some fs /\
    _build_fields [VStr "con"; VStr "up id home"] (PVal VNone) false
    = ok (action_path "con" "up id home", fieldset fs, false).
Proof.
  apply (action_fieldset "con" "up id home" false).
  simpl. right. right. left. reflexivity.
Defined.

(** ** More on the query and the actions *)

Section Calls.

Variable _shell : list pyval -> result (Z * string * string).
Variable shlex_split : string -> result (list string).

(** The outcomes of a query, by the step that ends it. *)
Lemma _nmcli_cases (obj command : pyval) (fields : option (list pyval))
    (multiline : bool) (t : trace) :
  (exists e, _nmcli _shell shlex_split obj command fields multiline t = (raise e, t)) \/
  (exists fs extra,
     _nmcli _shell shlex_split obj command fields multiline t
     = (rbind (_shell (nmcli_args fs obj ++ extra))
          (fun out => on_exit out fs multiline),
        t ++ [nmcli_args fs obj ++ extra])).
Proof.
  destruct (_build_fields ([obj; command] ++ fields_or_empty fields)
              (fields_obj fields) multiline) as [e|[[ns' f'] m']] eqn:Hr.
  { left. exists e. by apply _nmcli_unresolved. }
  destruct (_build_fields_from_table _ _ _ _ _ _ Hr) as (key & fs & _ & _ & ->).
  assert (m' = multiline) as -> by (by eapply _build_fields_multiline).
  destruct (command_args shlex_split command) as [e|extra] eqn:Hc.
  { left. exists e. by eapply _nmcli_bad_command. }
  right. exists fs, extra. by eapply _nmcli_resolved.
Qed.

Lemma run_action_valid cmdname command possibleargs args kwargs cmd t :
  build_cmd command possibleargs args kwargs = ok cmd ->
  run_action _shell shlex_split cmdname command possibleargs args kwargs t
  = _nmcli _shell shlex_split (VStr cmdname) (VStr cmd) None false t.
Proof. intros H. unfold run_action, io_bind, io_lift. by rewrite H. Qed.

End Calls.

(** X6.  An action of a registered object (nm, dev, con) that passes
    validation calls the tool exactly once, with nmcli, --terse, --fields,
    the comma-joined FieldSet of the action, the object, and the words of
    the command string.  An exception of the call is raised as it is; exit
    code zero returns the single-line parse of the output, never the
    multiline one; another exit code raises the failure message. *)
Theorem action_calls_tool_once
    (_shell : list pyval -> result (Z * string * string))
    (shlex_split : string -> result (list string))
    (cmdname command : string) (possibleargs args : pyobj) (kwargs : kwargs_t)
    (cmd : string) (extra : list pyval) (t : trace) :
  In cmdname objects ->
  build_cmd command possibleargs args kwargs = ok cmd ->
  command_args shlex_split (VStr cmd) = ok extra ->
  exists fs argv,
    NMCLI_FIELDS !! action_key cmdname cmd = Some fs /\
    argv = [VStr "nmcli"; VStr "--terse"; VStr "--fields";
            VStr (concat_with "," fs); VStr cmdname] ++ extra /\
    snd (run_action _shell shlex_split cmdname command possibleargs args kwargs t)
    = t ++ [argv] /\
    (forall e, _shell argv = raise e ->
       fst (run_action _shell shlex_split cmdname command possibleargs args kwargs t)
       = raise e) /\
    (forall retcode stdout stderr, _shell argv = ok (retcode, stdout, stderr) ->
       fst (run_action _shell shlex_split cmdname command possibleargs args kwargs t)
       = if (retcode =? 0)%Z
         then ok (flat_map (single_line fs) (split "010" stdout))
         else raise (Exception (failure_message retcode stderr))).
Proof.
  intros Hobj Hcmd Hextra.
  destruct (_build_fields_object cmdname cmd false Hobj) as (fs & Hfs & Hr).
  exists fs, (nmcli_args fs (VStr cmdname) ++ extra).
  split; [done|]. split.
  { unfold nmcli_args, py_or. simpl.
    by destruct Hobj as [<-|[<-|[<-|[]]]]. }
  rewrite (run_action_valid _ _ _ _ _ _ _ _ _ Hcmd).
  rewrite (_nmcli_resolved _shell shlex_split (VStr cmdname) (VStr cmd) None
             false t _ fs false extra Hr Hextra).
  simpl. split; [done|]. split.
  - by intros e ->.
  - intros retcode stdout stderr ->. simpl. by destruct (retcode =? 0)%Z.
Qed.

Lemma action_calls_tool_once_witness :
  exists fs argv,
    NMCLI_FIELDS !! action_key "nm" "enable true" = Some fs /\
    argv = [VStr "nmcli"; VStr "--terse"; VStr "--fields";
            VStr (concat_with "," fs); VStr "nm"]
           ++ [VStr "enable"; VStr "true"] /\
    snd (run_action (fixed_shell (0%Z, "", "")) plain_shlex "nm" "enable"
           (PList [VBool true; VBool false]) (PVal (VBool true)) [] [])
    = [] ++ [argv] /\
    (forall e, fixed_shell (0%Z, "", "") argv = raise e ->
       fst (run_action (fixed_shell (0%Z, "", "")) plain_shlex "nm" "enable"
              (PList [VBool true; VBool false]) (PVal (VBool true)) [] [])
       = raise e) /\
    (forall retcode stdout stderr,
       fixed_shell (0%Z, "", "") argv = ok (retcode, stdout, stderr) ->
       fst (run_action (fixed_shell (0%Z, "", "")) plain_shlex "nm" "enable"
              (PList [VBool true; VBool false]) (PVal (VBool true)) [] [])
       = if (retcode =? 0)%Z
         then ok (flat_map (single_line fs) (split "010" stdout))
         else raise (Exception (failure_message retcode stderr))).
Proof.
  apply (action_calls_tool_once (fixed_shell (0%Z, "", "")) plain_shlex
           "nm" "enable" (PList [VBool true; VBool false]) (PVal (VBool true))
           [] "enable true" [VStr "enable"; VStr "true"] []).
  - simpl. left. reflexivity.
  - vm_compute. reflexivity.
  - vm_compute. reflexivity.
Defined.

(** X7.  A query, and so an action, calls the tool at most once and only
    adds to the log: either it raises with the log as it was, and returns
    no record, or the log has grown by one argument vector, which starts
    with nmcli, --terse and --fields. *)
Theorem tool_called_at_most_once
    (_shell : list pyval -> result (Z * string * string))
    (shlex_split : string -> result (list string)) :
  (forall (obj command : pyval) (fields : option (list pyval))
          (multiline : bool) (t : trace),
     (exists e,
        _nmcli _shell shlex_split obj command fields multiline t = (raise e, t)) \/
     (exists argv,
        snd (_nmcli _shell shlex_split obj command fields multiline t) = t ++ [argv] /\
        take 3 argv = [VStr "nmcli"; VStr "--terse"; VStr "--fields"])) /\
  (forall (cmdname command : string) (possibleargs args : pyobj)
          (kwargs : kwargs_t) (t : trace),
     (exists e,
        run_action _shell shlex_split cmdname command possibleargs args kwargs t
        = (raise e, t)) \/
     (exists argv,
        snd (run_action _shell shlex_split cmdname command possibleargs args kwargs t)
        = t ++ [argv] /\
        take 3 argv = [VStr "nmcli"; VStr "--terse"; VStr "--fields"])).
Proof.
  assert (Hq : forall obj command fields multiline t,
     (exists e,
        _nmcli _shell shlex_split obj command fields multiline t = (raise e, t)) \/
     (exists argv,
        snd (_nmcli _shell shlex_split obj command fields multiline t) = t ++ [argv] /\
        take 3 argv = [VStr "nmcli"; VStr "--terse"; VStr "--fields"])).
  { intros obj command fields multiline t.
    destruct (_nmcli_cases _shell shlex_split obj command fields multiline t)
      as [[e He]|(fs & extra & Hrun)]; [by eauto|].
    right. eexists. by rewrite Hrun. }
  split; [exact Hq|].
  intros cmdname command possibleargs args kwargs t.
  destruct (build_cmd command possibleargs args kwargs) as [e|cmd] eqn:Hcmd.
  - left. exists e. by apply run_action_invalid.
  - rewrite (run_action_valid _ _ _ _ _ _ _ _ _ Hcmd). apply Hq.
Qed.

(** ** More on validation and serialisation *)

Section Validation.

Variable command : string.

Implicit Types (allowed l : list pyval) (v tok : pyval) (kwargs : kwargs_t).

Lemma py_eq_refl v : py_eq v v = true.
Proof.
  destruct v as [|b|z|s]; simpl.
  - done.
  - by destruct b.
  - apply Z.eqb_refl.
  - apply String.eqb_refl.
Qed.

Lemma sanitize_arg_idemp v : sanitize_arg (sanitize_arg v) = sanitize_arg v.
Proof.
  destruct v as [|[|]|z|s]; simpl; try done.
  - by rewrite lower_Z_to_string.
  - by rewrite lower_idemp.
Qed.

(** A token that is not [None] normalizes to a string. *)
Lemma sanitize_arg_str v :
  v <> VNone -> sanitize_arg v = VStr (py_str (sanitize_arg v)).
Proof. by destruct v. Qed.

Lemma sanitize_args_strs l :
  ~ In VNone l ->
  map sanitize_arg l = map VStr (map (fun v => py_str (sanitize_arg v)) l).
Proof.
  induction l as [|v l IH]; intros Hno; simpl; [done|].
  rewrite <- IH by (intros H; apply Hno; by right).
  f_equal. apply sanitize_arg_str. intros ->. apply Hno. by left.
Qed.

(** Validation against a list, all candidates being members. *)
Lemma verify_args_accept allowed l :
  forallb (fun tok => existsb (py_eq (sanitize_arg tok)) (map sanitize_arg allowed)) l
  = true ->
  verify_args command (PList allowed) l = ok (map sanitize_arg l).
Proof.
  induction l as [|a l IH]; simpl; [done|].
  rewrite andb_true_iff. intros [Ha Hl].
  unfold verify_arg at 1. simpl. rewrite Ha. simpl. by rewrite IH.
Qed.

Lemma option_of_no_kwargs l : map (option_of []) l = l.
Proof. induction l as [|a l IH]; simpl; [done|]. rewrite IH. by destruct a. Qed.

End Validation.

(** X8.  Against a list of allowed arguments, validation passes exactly
    when the normal form of every candidate is among the normal forms of
    the allowed arguments, and then returns the candidates normalized, in
    order. *)
Theorem validation_passes_iff (command : string) (allowed l : list pyval) :
  (exists out, verify_args command (PList allowed) l = ok out) <->
  forallb (fun tok => existsb (py_eq (sanitize_arg tok)) (map sanitize_arg allowed)) l
  = true.
Proof.
  split.
  - intros [out Hout].
    destruct (forallb _ l) eqn:Hall; [done|].
    assert (Hbad : exists tok, In tok l /\
              existsb (py_eq (sanitize_arg tok)) (map sanitize_arg allowed) = false).
    { clear Hout. induction l as [|a l IH]; [done|]. simpl in Hall.
      apply andb_false_iff in Hall as [Ha|Hl].
      - exists a. split; [by left|done].
      - destruct (IH Hl) as (tok & Hin & Hout). exists tok. split; [by right|done]. }
    destruct (verify_args_list_invalid command allowed l Hbad) as (tok & _ & _ & Hv).
    congruence.
  - intros Hall. eexists. by apply verify_args_accept.
Qed.

Lemma validation_passes_iff_witness :
  exists out,
    verify_args "wifi" (PList [VStr "on"; VStr "off"]) [VStr "ON"; VStr "Off"]
    = ok out.
Proof.
  apply (proj2 (validation_passes_iff "wifi" [VStr "on"; VStr "off"]
                  [VStr "ON"; VStr "Off"])).
  vm_compute. reflexivity.
Defined.

(** X9.  Every entry of a list of allowed arguments is accepted as a
    token, in the form it was registered in: [True] for enable, [None] for
    list. *)
Theorem allowed_argument_accepted (command : string) (allowed : list pyval)
    (a : pyval) :
  In a allowed ->
  verify_arg command (PList allowed) a = ok (sanitize_arg a).
Proof.
  intros Hin. unfold verify_arg. simpl.
  assert (H : existsb (py_eq (sanitize_arg a)) (map sanitize_arg allowed) = true).
  { apply existsb_exists. exists (sanitize_arg a).
    split; [by apply in_map|apply py_eq_refl]. }
  by rewrite H.
Qed.

Lemma allowed_argument_accepted_witness :
  verify_arg "enable" (PList [VBool true; VBool false]) (VBool false)
  = ok (sanitize_arg (VBool false)).
Proof.
  apply (allowed_argument_accepted "enable" [VBool true; VBool false] (VBool false)).
  simpl. right. left. reflexivity.
Defined.

(** X10.  Normalization is idempotent, and validation only sees the normal
    form: a token and its normal form are accepted or rejected alike, with
    the same result or the same exception. *)
Theorem normalization_idempotent (command : string) (possibleargs : pyobj)
    (v : pyval) :
  sanitize_arg (sanitize_arg v) = sanitize_arg v /\
  verify_arg command possibleargs (sanitize_arg v)
  = verify_arg command possibleargs v.
Proof.
  split; [apply sanitize_arg_idemp|].
  unfold verify_arg. by rewrite sanitize_arg_idemp.
Qed.

(** X11.  Positional tokens only.  When the tokens of a non-empty list,
    none of them [None], all pass validation, the command string is the
    command name and the normalized tokens, in order, separated by single
    blanks. *)
Theorem serialize_positional (command : string) (allowed l : list pyval) :
  l <> [] ->
  ~ In VNone l ->
  forallb (fun tok => existsb (py_eq (sanitize_arg tok)) (map sanitize_arg allowed)) l
  = true ->
  build_cmd command (PList allowed) (PList l) []
  = ok (command ++ " "
        ++ concat_with " " (map (fun v => py_str (sanitize_arg v)) l))%string.
Proof.
  intros Hne Hno Hall. unfold build_cmd, candidates. simpl.
  rewrite app_nil_r, (verify_args_accept command allowed l Hall). simpl.
  rewrite option_of_no_kwargs, sanitize_args_strs by done.
  rewrite join_strs. by destruct l.
Qed.

Lemma serialize_positional_witness :
  build_cmd "up" (strs ["id"; "uuid"; "iface"; "ap"])
    (PList [VStr "IFace"; VStr "AP"]) []
  = ok ("up" ++ " "
        ++ concat_with " "
             (map (fun v => py_str (sanitize_arg v)) [VStr "IFace"; VStr "AP"]))%string.
Proof.
  apply (serialize_positional "up" (map VStr ["id"; "uuid"; "iface"; "ap"])
           [VStr "IFace"; VStr "AP"]).
  - discriminate.
  - simpl. intros [H|[H|[]]]; discriminate H.
  - vm_compute. reflexivity.
Defined.

(** X12.  One keyword.  A keyword whose name is in normal form and passes
    validation is written as the name, a blank and the normalized value. *)
Theorem serialize_keyword (command : string) (allowed : list pyval)
    (k : string) (v : pyobj) :
  lower k = k ->
  existsb (py_eq (VStr k)) (map sanitize_arg allowed) = true ->
  build_cmd command (PList allowed) (PVal VNone) [(k, v)]
  = ok (command ++ " " ++ k ++ " " ++ py_str_obj (sanitize_args v))%string.
Proof.
  intros Hk Hin. unfold build_cmd, candidates. simpl.
  unfold verify_arg. simpl. rewrite Hk, Hin. simpl.
  unfold option_of, kw_lookup. simpl. by rewrite String.eqb_refl.
Qed.

Lemma serialize_keyword_witness :
  build_cmd "up" (strs ["id"; "uuid"; "iface"; "ap"]) (PVal VNone)
    [("id", PVal (VStr "Eth0"))]
  = ok ("up" ++ " " ++ "id" ++ " "
        ++ py_str_obj (sanitize_args (PVal (VStr "Eth0"))))%string.
Proof.
  apply (serialize_keyword "up" (map VStr ["id"; "uuid"; "iface"; "ap"]) "id").
  - vm_compute. reflexivity.
  - vm_compute. reflexivity.
Defined.

(** X13.  A keyword whose name is not in normal form passes validation
    under its normal form, but its value is looked up under that form and
    not found: the command string has the normalized name alone. *)
Theorem keyword_name_not_normal_loses_value (command : string)
    (allowed : list pyval) (k : string) (v : pyobj) :
  lower k <> k ->
  existsb (py_eq (VStr (lower k))) (map sanitize_arg allowed) = true ->
  build_cmd command (PList allowed) (PVal VNone) [(k, v)]
  = ok (command ++ " " ++ lower k)%string.
Proof.
  intros Hk Hin. unfold build_cmd, candidates. simpl.
  unfold verify_arg. simpl. rewrite Hin. simpl.
  unfold option_of, kw_lookup. simpl.
  destruct (String.eqb k (lower k)) eqn:He; [|done].
  apply String.eqb_eq in He. congruence.
Qed.

Lemma keyword_name_not_normal_loses_value_witness :
  build_cmd "down" (strs ["id"; "uuid"]) (PVal VNone) [("UUID", PVal (VStr "abc"))]
  = ok ("down" ++ " " ++ lower "UUID")%string.
Proof.
  apply (keyword_name_not_normal_loses_value "down" (map VStr ["id"; "uuid"]) "UUID").
  - vm_compute. discriminate.
  - vm_compute. reflexivity.
Defined.

(** X14.  A token given both as a positional argument and as the name of a
    keyword is a candidate twice, and is written twice, each time with the
    value. *)
Theorem positional_and_keyword_written_twice (command : string)
    (allowed : list pyval) (k : string) (v : pyobj) :
  lower k = k ->
  existsb (py_eq (VStr k)) (map sanitize_arg allowed) = true ->
  build_cmd command (PList allowed) (PVal (VStr k)) [(k, v)]
  = ok (command ++ " " ++ k ++ " " ++ py_str_obj (sanitize_args v)
        ++ " " ++ k ++ " " ++ py_str_obj (sanitize_args v))%string.
Proof.
  intros Hk Hin. unfold build_cmd, candidates. simpl.
  unfold verify_arg. simpl. rewrite Hk, Hin. simpl.
  unfold option_of, kw_lookup. simpl. rewrite String.eqb_refl. simpl.
  by rewrite !append_assoc_str.
Qed.

Lemma positional_and_keyword_written_twice_witness :
  build_cmd "up" (strs ["id"; "uuid"; "iface"; "ap"]) (PVal (VStr "id"))
    [("id", PVal (VStr "eth0"))]
  = ok ("up" ++ " " ++ "id" ++ " " ++ py_str_obj (sanitize_args (PVal (VStr "eth0")))
        ++ " " ++ "id" ++ " " ++ py_str_obj (sanitize_args (PVal (VStr "eth0"))))%string.
Proof.
  apply (positional_and_keyword_written_twice "up"
           (map VStr ["id"; "uuid"; "iface"; "ap"]) "id").
  - vm_compute. reflexivity.
  - vm_compute. reflexivity.
Defined.

(** [join] stops at the first item that is [None], and names its index. *)
Lemma strs_from_none i (ss : list string) (rest : list pyval) :
  strs_from i (map VStr ss ++ VNone :: rest)
  = raise (TypeError ("sequence item " ++ nat_to_string (i + length ss)
                      ++ ": expected string, NoneType found")).
Proof.
  revert i. induction ss as [|x ss IH]; intros i; simpl.
  - by rewrite Nat.add_0_r.
  - rewrite IH. simpl. by rewrite Nat.add_succ_r.
Qed.

(** X15.  [None] in a list of tokens.  Where [None] is an allowed argument
    a list holding it passes validation, and then the command string cannot
    be joined: the call raises the [TypeError] of [join] at the index of the
    first [None].  [None] given as the argument itself means no token, and
    the command string is the command name. *)
Theorem none_token_in_list_raises (command : string) (allowed pre post : list pyval) :
  ~ In VNone pre ->
  forallb (fun tok => existsb (py_eq (sanitize_arg tok)) (map sanitize_arg allowed))
    (pre ++ VNone :: post) = true ->
  build_cmd command (PList allowed) (PList (pre ++ VNone :: post)) []
  = raise (TypeError ("sequence item " ++ nat_to_string (length pre)
                      ++ ": expected string, NoneType found")) /\
  build_cmd command (PList allowed) (PVal VNone) [] = ok command.
Proof.
  intros Hno Hall. split; [|done].
  unfold build_cmd, candidates. simpl.
  rewrite app_nil_r, (verify_args_accept command allowed _ Hall). simpl.
  rewrite option_of_no_kwargs, map_app, sanitize_args_strs by done.
  simpl. unfold join. rewrite strs_from_none. simpl.
  rewrite !length_map.
  by destruct (map VStr _ ++ _) eqn:He; [destruct pre|].
Qed.

Lemma none_token_in_list_raises_witness :
  build_cmd "list" (PList [VNone; VStr "id"; VStr "uuid"])
    (PList ([VStr "id"] ++ VNone :: [])) []
  = raise (TypeError ("sequence item " ++ nat_to_string (length [VStr "id"])
                      ++ ": expected string, NoneType found")) /\
  build_cmd "list" (PList [VNone; VStr "id"; VStr "uuid"]) (PVal VNone) []
  = ok "list".
Proof.
  apply (none_token_in_list_raises "list" [VNone; VStr "id"; VStr "uuid"]
           [VStr "id"] []).
  - simpl. intros [H|[]]. discriminate H.
  - vm_compute. reflexivity.
Defined.

(** ** More on the parser *)

Section ParserMore.

Implicit Types (line stdout : string) (fields : list string) (row : record).

(** A line with as many columns as there are fields. *)
Lemma single_line_fits fields (values : list string) :
  values <> [] -> length values = length fields ->
  Forall (fun v => mem_ascii ":" v = false) values ->
  single_line fields (concat_with ":" values) = [dict_of (combine fields values)].
Proof.
  intros Hne Hlen Hclean. unfold single_line.
  rewrite (split_concat ":" values Hne Hclean).
  by rewrite (proj2 (Nat.eqb_eq _ _) Hlen).
Qed.

Lemma fold_insert_keeps (l : list (string * string)) (d : record) k v :
  ~ In k (map fst l) -> d !! k = Some v ->
  fold_left (fun d kv => <[kv.1 := kv.2]> d) l d !! k = Some v.
Proof.
  revert d. induction l as [|[k' v'] l IH]; intros d Hno Hd; simpl; [done|].
  apply IH.
  - intros H. apply Hno. by right.
  - rewrite lookup_insert_ne; [done|]. intros ->. apply Hno. by left.
Qed.

(** The last pair of a key gives its value. *)
Lemma dict_of_lookup_last (l1 l2 : list (string * string)) k v :
  ~ In k (map fst l2) ->
  dict_of (l1 ++ (k, v) :: l2) !! k = Some v.
Proof.
  intros Hno. unfold dict_of. rewrite fold_left_app. simpl.
  apply fold_insert_keeps; [done|]. apply lookup_insert_eq.
Qed.

(** The multiline loop goes on from the row it is given: what it adds to
    the empty row, it adds to any row, over what the row had. *)
Lemma multiline_rows_union (lines : list string) (r0 d row : record) :
  multiline_rows r0 lines = ok d ->
  multiline_rows (r0 ∪ row) lines = ok (d ∪ row).
Proof.
  revert r0. induction lines as [|line lines IH]; intros r0; simpl.
  - by inversion 1.
  - unfold multiline_line.
    destruct (split1 ":" line) as [|k [|v [|? ?]]]; simpl; auto.
    destruct (split "." k) as [|a [|b [|? ?]]]; simpl; try done.
    intros H. rewrite insert_union_l. by apply IH.
Qed.

Lemma multiline_rows_app (l1 l2 : list string) row :
  multiline_rows row (l1 ++ l2) =
  rbind (multiline_rows row l1) (fun r => multiline_rows r l2).
Proof.
  revert row. induction l1 as [|line l1 IH]; intros row; simpl; [done|].
  destruct (multiline_line row line) as [e|r]; simpl; [done|]. apply IH.
Qed.

(** The line of an assignment is cut back into its parts. *)
Lemma assignment_of_line (section prop value : string) :
  mem_ascii "." section = false -> mem_ascii ":" section = false ->
  mem_ascii "." prop = false -> mem_ascii ":" prop = false ->
  assignment (assignment_line (section, prop, value)) = Some (prop, value) /\
  dotted_key (assignment_line (section, prop, value)) = true.
Proof.
  intros Hs1 Hs2 Hp1 Hp2. unfold assignment, dotted_key, assignment_line.
  replace (section ++ "." ++ prop ++ ":" ++ value)%string
    with ((section ++ String "." prop) ++ String ":" value)%string
    by (by rewrite append_assoc_str, append_cons).
  rewrite split1_app_sep
    by (by rewrite mem_ascii_append, mem_ascii_cons, Hs2, Hp2).
  by rewrite split_app_sep, !split_no_sep.
Qed.

End ParserMore.

(** X16.  Writing rows and parsing them back, single-line mode.  For a
    FieldSet of two names or more, the text of rows that each have one
    value per field, the values free of colons and line feeds and joined by
    colons, parses to the records of the rows in order; the empty line
    after the last line feed gives nothing. *)
Theorem single_line_parse_of_rows (fields : list string)
    (rows : list (list string)) :
  2 <= length fields ->
  Forall (fun values =>
            length values = length fields /\
            Forall (fun v => mem_ascii ":" v = false /\
                             mem_ascii "010" v = false) values) rows ->
  parse (text (map (concat_with ":") rows)) fields false
  = ok (map (fun values => dict_of (combine fields values)) rows).
Proof.
  intros Hlen Hrows. unfold parse. rewrite split_text.
  - rewrite flat_map_app. simpl.
    assert (Hblank : single_line fields "" = []).
    { unfold single_line. simpl. by destruct fields as [|f [|g fields]]; [simpl in Hlen; lia..|]. }
    rewrite Hblank, !app_nil_r. f_equal.
    induction rows as [|values rows IH]; [done|].
    apply Forall_cons in Hrows as [[Hv Hclean] Hrest]. simpl.
    rewrite single_line_fits; [by rewrite IH| |done|].
    + destruct values; [simpl in Hv; lia|done].
    + eapply Forall_impl; [exact Hclean|]. by intros v [? ?].
  - apply Forall_forall. intros line Hin.
    apply list_elem_of_In, in_map_iff in Hin as (values & <- & Hin).
    rewrite Forall_forall in Hrows.
    destruct (Hrows values (proj2 (list_elem_of_In _ _) Hin)) as [_ Hclean].
    apply mem_ascii_concat; [done|].
    eapply Forall_impl; [exact Hclean|]. by intros v [? ?].
Qed.

Lemma single_line_parse_of_rows_witness :
  parse (text (map (concat_with ":")
                 [["eth0"; "802-3-ethernet"; "connected"];
                  ["wlan0"; "802-11-wireless"; "disconnected"]]))
    ["DEVICE"; "TYPE"; "STATE"] false
  = ok (map (fun values => dict_of (combine ["DEVICE"; "TYPE"; "STATE"] values))
          [["eth0"; "802-3-ethernet"; "connected"];
           ["wlan0"; "802-11-wireless"; "disconnected"]]).
Proof.
  apply (single_line_parse_of_rows ["DEVICE"; "TYPE"; "STATE"]
           [["eth0"; "802-3-ethernet"; "connected"];
            ["wlan0"; "802-11-wireless"; "disconnected"]]).
  - simpl. lia.
  - repeat constructor.
Defined.

(** X17.  A FieldSet of one name.  Every line without a colon has one
    column, the empty line after the last line feed too: the text of n such
    lines parses to n + 1 records, the last with the empty string. *)
Theorem single_line_one_field (f : string) (lines : list string) :
  Forall (fun l => mem_ascii ":" l = false /\ mem_ascii "010" l = false) lines ->
  parse (text lines) [f] false
  = ok (map (fun l => {[ f := l ]}) (lines ++ [""])).
Proof.
  intros Hclean. unfold parse. rewrite split_text.
  - f_equal. induction (lines ++ [""]) as [|l ls IH] eqn:Heq in lines, Hclean |- *.
    + done.
    + assert (Hl : mem_ascii ":" l = false).
      { destruct lines as [|l0 lines]; simpl in Heq; inversion Heq; subst; [done|].
        by apply Forall_cons in Hclean as [[? ?] _]. }
      simpl. unfold single_line at 1. rewrite split_no_sep by done. simpl.
      unfold dict_of. simpl. rewrite insert_empty. f_equal.
      destruct lines as [|l0 lines]; simpl in Heq; inversion Heq; subst; [done|].
      apply Forall_cons in Hclean as [_ Hrest]. by apply (IH lines).
  - eapply Forall_impl; [exact Hclean|]. by intros l [? ?].
Qed.

Lemma single_line_one_field_witness :
  parse (text ["eth0"; "wlan0"]) ["DEVICE"] false
  = ok (map (fun l => {[ "DEVICE" := l ]}) (["eth0"; "wlan0"] ++ [""])).
Proof.
  apply (single_line_one_field "DEVICE" ["eth0"; "wlan0"]).
  repeat constructor.
Defined.

(** X18.  The single-line parse goes line by line: the parse of two
    texts put together with a line feed between them is the records of the
    first followed by the records of the second, and it never raises. *)
Theorem single_line_parse_app (a b : string) (fields : list string) :
  exists ra rb,
    parse a fields false = ok ra /\
    parse b fields false = ok rb /\
    parse (a ++ LF ++ b) fields false = ok (ra ++ rb).
Proof.
  eexists _, _. split; [reflexivity|]. split; [reflexivity|].
  unfold parse, LF. rewrite append_cons, append_nil_l, split_app_sep.
  by rewrite flat_map_app.
Qed.

(** X19.  From a record back to its line.  For distinct field names and a
    line with one column per field, joining the values of the record, in
    the order of the fields, with colons gives the line. *)
Theorem single_line_join_back (fields : list string) (line : string) :
  NoDup fields ->
  length (split ":" line) = length fields ->
  exists r,
    single_line fields line = [r] /\
    concat_with ":" (map (fun f => default "" (r !! f)) fields) = line.
Proof.
  intros Hnd Hlen. exists (dict_of (combine fields (split ":" line))). split.
  - unfold single_line. by rewrite (proj2 (Nat.eqb_eq _ _) Hlen).
  - transitivity (concat_with ":" (split ":" line)); [|apply concat_split].
    f_equal. apply list_eq. intros i. rewrite list_lookup_fmap.
    destruct (fields !! i) as [f|] eqn:Hf; simpl.
    + rewrite (dict_of_combine_lookup fields _ i f) by done.
      destruct (split ":" line !! i) as [v|] eqn:Hv; [done|].
      apply lookup_ge_None in Hv. apply lookup_lt_Some in Hf. lia.
    + symmetry. apply lookup_ge_None. apply lookup_ge_None in Hf. lia.
Qed.

Lemma single_line_join_back_witness :
  exists r,
    single_line ["NAME"; "UUID"; "TYPE"; "TIMESTAMP-REAL"] "home:1f2e::never" = [r] /\
    concat_with ":" (map (fun f => default "" (r !! f))
                       ["NAME"; "UUID"; "TYPE"; "TIMESTAMP-REAL"])
    = "home:1f2e::never".
Proof.
  apply (single_line_join_back ["NAME"; "UUID"; "TYPE"; "TIMESTAMP-REAL"]
           "home:1f2e::never").
  - apply (bool_decide_unpack _). vm_compute. reflexivity.
  - vm_compute. reflexivity.
Defined.

(** X20.  Writing assignments and parsing them back, multiline mode.  The
    text of lines section.property:value, the sections and properties free
    of dots, colons and line feeds and the values free of line feeds,
    parses to the one record of the properties and their values, a later
    line overwriting an earlier one of the same property; colons in a
    value stay in it. *)
Theorem multiline_parse_of_assignments (fields : list string)
    (items : list (string * string * string)) :
  Forall (fun '(section, prop, value) =>
            (mem_ascii "." section = false /\ mem_ascii ":" section = false /\
             mem_ascii "010" section = false) /\
            (mem_ascii "." prop = false /\ mem_ascii ":" prop = false /\
             mem_ascii "010" prop = false) /\
            mem_ascii "010" value = false) items ->
  parse (text (map assignment_line items)) fields true
  = ok [dict_of (map (fun '(_, prop, value) => (prop, value)) items)].
Proof.
  intros Hitems.
  assert (Hlines : split "010" (text (map assignment_line items))
                   = map assignment_line items ++ [""]).
  { apply split_text. apply Forall_forall. intros line Hin.
    apply list_elem_of_In, in_map_iff in Hin as ([[section prop] value] & <- & Hin).
    rewrite Forall_forall in Hitems.
    destruct (Hitems _ (proj2 (list_elem_of_In _ _) Hin))
      as ((_ & _ & Hs) & (_ & _ & Hp) & Hv).
    unfold assignment_line.
    by rewrite !mem_ascii_append, Hs, Hp, Hv. }
  rewrite multiline_parse_dotted; rewrite Hlines.
  - rewrite omap_app. simpl. rewrite app_nil_r. do 3 f_equal.
    clear Hlines.
    induction items as [|[[section prop] value] items IH]; [done|].
    apply Forall_cons in Hitems as [((H1 & H2 & _) & (H3 & H4 & _) & _) Hrest].
    destruct (assignment_of_line section prop value H1 H2 H3 H4) as [Ha _].
    rewrite !map_cons. cbn [omap list_omap]. rewrite Ha.
    f_equal. by apply IH.
  - rewrite forallb_app. simpl. rewrite andb_true_r. clear Hlines.
    induction items as [|[[section prop] value] items IH]; [done|].
    apply Forall_cons in Hitems as [((H1 & H2 & _) & (H3 & H4 & _) & _) Hrest].
    destruct (assignment_of_line section prop value H1 H2 H3 H4) as [_ Hd].
    rewrite map_cons. cbn [forallb]. rewrite Hd. by apply IH.
Qed.

Lemma multiline_parse_of_assignments_witness :
  parse (text (map assignment_line
                 [("connection", "id", "home");
                  ("802-3-ethernet", "mac-address", "00:11:22:33:44:55");
                  ("ipv4", "method", "auto");
                  ("ipv6", "method", "ignore")])) [] true
  = ok [dict_of (map (fun '(_, prop, value) => (prop, value))
                   [("connection", "id", "home");
                    ("802-3-ethernet", "mac-address", "00:11:22:33:44:55");
                    ("ipv4", "method", "auto");
                    ("ipv6", "method", "ignore")])].
Proof.
  apply (multiline_parse_of_assignments []
           [("connection", "id", "home");
            ("802-3-ethernet", "mac-address", "00:11:22:33:44:55");
            ("ipv4", "method", "auto");
            ("ipv6", "method", "ignore")]).
  repeat constructor.
Defined.

(** X21.  Last write wins.  On output whose lines with a colon all have
    one dot in the key, the value the record has for a property is the one
    of the last line that assigns the property, whatever the sections. *)
Theorem multiline_last_assignment (stdout : string) (fields : list string)
    (before after : list string) (line prop value : string) :
  split "010" stdout = before ++ line :: after ->
  forallb dotted_key (split "010" stdout) = true ->
  assignment line = Some (prop, value) ->
  Forall (fun l => forall v, assignment l <> Some (prop, v)) after ->
  exists r,
    parse stdout fields true = ok [r] /\ r !! prop = Some value.
Proof.
  intros Hsplit Hdot Hline Hafter.
  rewrite (multiline_parse_dotted stdout fields Hdot).
  eexists. split; [reflexivity|].
  rewrite Hsplit, omap_app. simpl. rewrite Hline.
  apply dict_of_lookup_last.
  intros Hin. apply in_map_iff in Hin as ([p v] & Hp & Hin). simpl in Hp. subst p.
  apply list_elem_of_In, list_elem_of_omap in Hin as (l & Hl & Hassign).
  rewrite Forall_forall in Hafter. by apply (Hafter l Hl v).
Qed.

Lemma multiline_last_assignment_witness :
  exists r,
    parse (text ["ipv4.method:auto"; "ipv6.method:ignore"; "ipv6.dns:"]) [] true
    = ok [r] /\
    r !! "method" = Some "ignore".
Proof.
  apply (multiline_last_assignment
           (text ["ipv4.method:auto"; "ipv6.method:ignore"; "ipv6.dns:"]) []
           ["ipv4.method:auto"] ["ipv6.dns:"; ""] "ipv6.method:ignore").
  - vm_compute. reflexivity.
  - vm_compute. reflexivity.
  - vm_compute. reflexivity.
  - repeat constructor; intros v; vm_compute; discriminate.
Defined.

(** X22.  The multiline parse goes on from what it has: when two texts
    parse to a record each, the two put together with a line feed between
    them parse to the one record of the second over the first; when the
    first raises, so do the two together. *)
Theorem multiline_parse_app (a b : string) (fields : list string) :
  (forall ra rb,
     parse a fields true = ok [ra] ->
     parse b fields true = ok [rb] ->
     parse (a ++ LF ++ b) fields true = ok [rb ∪ ra]) /\
  (forall e,
     parse a fields true = raise e ->
     parse (a ++ LF ++ b) fields true = raise e).
Proof.
  unfold parse, LF. rewrite append_cons, append_nil_l, split_app_sep.
  rewrite multiline_rows_app. split.
  - intros ra rb Ha Hb.
    destruct (multiline_rows ∅ (split "010" a)) as [e|ra'] eqn:Hra; [done|].
    destruct (multiline_rows ∅ (split "010" b)) as [e|rb'] eqn:Hrb; [done|].
    simpl in *. inversion Ha; inversion Hb; subst.
    apply (multiline_rows_union _ _ _ ra) in Hrb.
    rewrite (left_id_L ∅ (∪)) in Hrb. by rewrite Hrb.
  - intros e Ha.
    destruct (multiline_rows ∅ (split "010" a)) as [e'|ra'] eqn:Hra; [|done].
    simpl in *. by inversion Ha.
Qed.

Lemma multiline_parse_app_witness :
  parse ("ipv4.method:auto" ++ LF ++ "ipv6.method:ignore") [] true
  = ok [ {[ "method" := "ignore" ]} ∪ {[ "method" := "auto" ]} ].
Proof.
  apply (proj1 (multiline_parse_app "ipv4.method:auto" "ipv6.method:ignore" [])).
  - vm_compute. reflexivity.
  - vm_compute. reflexivity.
Defined.

(** ** The registries *)

Lemma find_unique_entry (l : list (string * pyobj)) (c : string) (pa : pyobj) :
  NoDup (map fst l) -> In (c, pa) l ->
  find (fun e => String.eqb (fst e) c) l = Some (c, pa).
Proof.
  induction l as [|[c' pa'] l IH]; intros Hnd Hin; [done|].
  simpl in Hnd. apply NoDup_cons in Hnd as [Hc' Hnd]. simpl.
  destruct (String.eqb c' c) eqn:He.
  - apply String.eqb_eq in He as ->.
    destruct Hin as [H|Hin]; [by inversion H|].
    exfalso. apply Hc'. apply list_elem_of_In, in_map_iff. by exists (c, pa).
  - destruct Hin as [H|Hin]; [|by apply IH].
    inversion H; subst. by rewrite String.eqb_refl in He.
Qed.

(** X23.  The constructor sets one action per entry of its table, and
    where the command names are distinct, as they are for nm, con and dev,
    no entry hides another: each command is registered with its own allowed
    arguments. *)
Theorem registry_entries_registered :
  (forall (o : _NMCommand) (c : string) (pa : pyobj),
     NoDup (map fst (nm_commands o)) ->
     In (c, pa) (nm_commands o) ->
     registered o c = Some pa) /\
  NoDup (map fst (nm_commands nm)) /\
  NoDup (map fst (nm_commands con)) /\
  NoDup (map fst (nm_commands dev)).
Proof.
  split.
  - intros o c pa Hnd Hin. unfold registered.
    rewrite (find_unique_entry (rev (nm_commands o)) c pa); [done| |].
    + by rewrite map_rev, rev_is_reverse, reverse_Permutation.
    + by apply in_rev in Hin.
  - repeat split; apply (bool_decide_unpack _); by vm_compute.
Qed.

Lemma registry_entries_registered_witness :
  registered con "status"
  = Some (PList [VNone; VStr "id"; VStr "uuid"; VStr "path"]).
Proof.
  apply (proj1 registry_entries_registered con "status").
  - apply (bool_decide_unpack _). vm_compute. reflexivity.
  - simpl. right. left. reflexivity.
Defined.

(** ** Claims that fail where the defects above are reached *)

(** C4 fails on the code.  The claim is about any object and any command;
    status is registered with [None], and a call of it with a token that is
    not allowed does not raise the error that names the token, the command
    and the allowed arguments: the membership test raises a [TypeError]
    whose message names none of them, for a positional token and for the
    name of a keyword alike.  The log of tool calls is unchanged. *)
Theorem status_rejection_names_nothing :
  (forall _shell shlex_split t,
     call_action _shell shlex_split dev "status" (PVal (VStr "wlan0")) [] t
     = (raise (TypeError "argument of type 'NoneType' is not iterable"), t)) /\
  (forall _shell shlex_split t,
     call_action _shell shlex_split nm "status" (PVal VNone)
       [("food", PVal (VInt 8302))] t
     = (raise (TypeError "argument of type 'NoneType' is not iterable"), t)) /\
  (forall _shell shlex_split t msg,
     fst (call_action _shell shlex_split dev "status" (PVal (VStr "wlan0")) [] t)
     <> raise (Exception msg)).
Proof.
  split; [|split].
  - intros. by vm_compute.
  - intros. by vm_compute.
  - intros _shell shlex_split t msg H. vm_compute in H. discriminate H.
Qed.

(** C9 fails on the code.  The claim has the parsed records returned
    whenever the exit code is zero; the query con, list id with
    [multiline=True], on a tool that exits with zero and prints the line
    a:b, calls the tool once and then raises the [ValueError] of the
    multiline parse: no record is returned.  The same holds for a key with
    two dots. *)
Theorem query_exit_zero_can_raise :
  fst (_nmcli (fixed_shell (0%Z, text ["a:b"], "")) plain_shlex
         (VStr "con") (VStr "list id") None true [])
  = raise (ValueError "need more than 1 value to unpack") /\
  length (snd (_nmcli (fixed_shell (0%Z, text ["a:b"], "")) plain_shlex
                 (VStr "con") (VStr "list id") None true [])) = 1 /\
  (forall rows,
     fst (_nmcli (fixed_shell (0%Z, text ["a:b"], "")) plain_shlex
            (VStr "con") (VStr "list id") None true [])
     <> ok rows) /\
  fst (_nmcli (fixed_shell (0%Z, text ["ipv4.dns.search:lan"], "")) plain_shlex
         (VStr "con") (VStr "list id") None true [])
  = raise (ValueError "too many values to unpack").
Proof.
  split; [by vm_compute|]. split; [by vm_compute|]. split; [|by vm_compute].
  intros rows H. vm_compute in H. discriminate H.
Qed.
